(** * MiOrganizador: the day-closure engine and the monthly series

    A shallow embedding of the date utilities, of [closeMissingDays], of
    [buildMonthlySeries] and of the state updates of the habit board
    (the screen component of the application), with the properties of its
    specification stated and settled against them.

    Definitions:
    - [EcmaDate]  the calendar arithmetic of the ECMAScript [Date] object;
    - [JsText]    [String(n)], [Number(s)], [split], [padStart];
    - the data of the screen and its state updates;
    - [Host]      the screen's functions, over the local time zone of the
                  device, which is a parameter;
    - [Tabs]      the variant of the monthly series kept under [app/(tabs)];
    - the zones the examples run in, day numbers and well-formed identifiers.

    Proofs: the calendar, numbers and text, dates in a sane zone, the
    identifiers, the loops of the closure, the series; then the claims
    C1 to C10, each with the scenario of the specification it covers. *)

From Stdlib Require Import ZArith Lia Ascii String DecimalString DecimalZ.
From stdpp Require Import base option list strings gmap fin_maps.

Local Open Scope Z_scope.

(** ** Calendar arithmetic of [Date] (ECMAScript, "Time Values and Time Range") *)

Module EcmaDate.

Definition msPerDay : Z := 86400000.

Definition Day (t : Z) : Z := t / msPerDay.
Definition TimeWithinDay (t : Z) : Z := t mod msPerDay.

Definition DayFromYear (y : Z) : Z :=
  365 * (y - 1970) + (y - 1969) / 4 - (y - 1901) / 100 + (y - 1601) / 400.

Definition isLeap (y : Z) : bool :=
  ((y mod 4 =? 0) && negb (y mod 100 =? 0)) || (y mod 400 =? 0).

Definition DaysInYear (y : Z) : Z := if isLeap y then 366 else 365.

(** "The largest integer y such that DayFromYear(y) <= day": an estimate from
    the mean year length, corrected by one either way. *)
Definition YearFromDay (day : Z) : Z :=
  let y := 1970 + (400 * day) / 146097 in
  if day <? DayFromYear y then y - 1
  else if DayFromYear (y + 1) <=? day then y + 1 else y.

Definition leapDays (y : Z) : Z := if isLeap y then 1 else 0.

Definition DayWithinYear (day : Z) : Z := day - DayFromYear (YearFromDay day).

(** The table of MonthFromTime. *)
Definition MonthFromDay (day : Z) : Z :=
  let w := DayWithinYear day in
  let l := leapDays (YearFromDay day) in
  if w <? 31 then 0
  else if w <? 59 + l then 1
  else if w <? 90 + l then 2
  else if w <? 120 + l then 3
  else if w <? 151 + l then 4
  else if w <? 181 + l then 5
  else if w <? 212 + l then 6
  else if w <? 243 + l then 7
  else if w <? 273 + l then 8
  else if w <? 304 + l then 9
  else if w <? 334 + l then 10
  else 11.

(** Days of the year before the first of month [mn] (0 = January). *)
Definition daysBeforeMonth (l mn : Z) : Z :=
  match mn with
  | 0 => 0
  | 1 => 31
  | 2 => 59 + l
  | 3 => 90 + l
  | 4 => 120 + l
  | 5 => 151 + l
  | 6 => 181 + l
  | 7 => 212 + l
  | 8 => 243 + l
  | 9 => 273 + l
  | 10 => 304 + l
  | _ => 334 + l
  end.

(** The table of DateFromTime. *)
Definition DateFromDay (day : Z) : Z :=
  DayWithinYear day
  - daysBeforeMonth (leapDays (YearFromDay day)) (MonthFromDay day) + 1.

Definition YearFromTime (t : Z) : Z := YearFromDay (Day t).
Definition MonthFromTime (t : Z) : Z := MonthFromDay (Day t).
Definition DateFromTime (t : Z) : Z := DateFromDay (Day t).

(** MakeDay on integral arguments: the day of the first of the month, found
    through the year and the month table, plus [dt - 1]. *)
Definition MakeDay (year month dt : Z) : Z :=
  let ym := year + month / 12 in
  let mn := month mod 12 in
  DayFromYear ym + daysBeforeMonth (leapDays ym) mn + dt - 1.

Definition MakeTime (hour min sec ms : Z) : Z :=
  hour * 3600000 + min * 60000 + sec * 1000 + ms.

Definition MakeDate (day time : Z) : Z := day * msPerDay + time.

(** A time value beyond 8.64e15 ms is not a date: [None] is NaN. *)
Definition TimeClip (t : Z) : option Z :=
  if Z.abs t <=? 8640000000000000 then Some t else None.

(** Number of days of month [mn] (0 = January) in a year with [l] leap days. *)
Definition monthLength (l mn : Z) : Z :=
  match mn with
  | 1 => 28 + l
  | 3 | 5 | 8 | 10 => 30
  | _ => 31
  end.

End EcmaDate.

Export EcmaDate.

(** ** Numbers and text of the JavaScript host *)

Module JsText.

(** The numbers met here are integers or NaN ([None]). *)
Definition JsNum : Type := option Z.

(** [String(n)] for an integer or NaN. *)
Definition numberToString (n : JsNum) : string :=
  match n with
  | Some z => NilEmpty.string_of_int (Z.to_int z)
  | None => "NaN"
  end.

(** A text is the sequence of its bytes, a character beyond ASCII being the
    bytes of its UTF-8 form, all of them 128 or more. [isWhite] holds of the
    blanks of ASCII: tab, line feed, vertical tab, form feed, carriage return
    and space. JavaScript strips a few blanks more, none of them in ASCII;
    [hasWideBlank] below finds them, and [trim] and [StringToNumber] are
    [String.prototype.trim] and [Number] on the texts that hold none. *)
Definition isWhite (c : ascii) : bool :=
  let n := nat_of_ascii c in
  ((9 <=? n) && (n <=? 13))%nat || (n =? 32)%nat.

Fixpoint trimStart (s : string) : string :=
  match s with
  | String c r => if isWhite c then trimStart r else s
  | EmptyString => EmptyString
  end.

Fixpoint trimEnd (s : string) : string :=
  match s with
  | String c r =>
      match trimEnd r with
      | EmptyString => if isWhite c then EmptyString else String c EmptyString
      | r' => String c r'
      end
  | EmptyString => EmptyString
  end.

Definition trim (s : string) : string := trimEnd (trimStart s).

Definition digitsToNumber (s : string) : JsNum :=
  match s with
  | EmptyString => None
  | _ => Z.of_uint <$> NilEmpty.uint_of_string s
  end.

(** [Number(s)] on a string: blanks around are dropped, the empty text is 0,
    a decimal integer with an optional sign is its value. Any other text is
    NaN here; fractions, exponents, radix prefixes and [Infinity], which
    JavaScript reads too, are never written by [toISODate] and are left out.
    So a number returned here is the number [Number] returns, as long as it
    is small enough to be a double exactly; a NaN returned here is the NaN
    of [Number] when the text is [foreign] below, and says nothing of
    [Number] otherwise. *)
Definition StringToNumber (s : string) : JsNum :=
  match trim s with
  | EmptyString => Some 0
  | String "-" r => Z.opp <$> digitsToNumber r
  | String "+" r => digitsToNumber r
  | t => digitsToNumber t
  end.

(** [s.split(sep)] for a separator of one character. *)
Fixpoint split (sep : ascii) (s : string) : list string :=
  match s with
  | EmptyString => [EmptyString]
  | String c r =>
      if Ascii.eqb c sep then EmptyString :: split sep r
      else match split sep r with
           | x :: xs => String c x :: xs
           | [] => [String c EmptyString]
           end
  end.

Fixpoint repeatChar (n : nat) (c : ascii) : string :=
  match n with
  | O => EmptyString
  | S n' => String c (repeatChar n' c)
  end.

(** [s.padStart(width, c)] for a filler of one character. *)
Definition padStart (width : nat) (c : ascii) (s : string) : string :=
  repeatChar (width - String.length s) c +:+ s.

(** [Math.round(n / d)] for integers [n] and [d > 0]: the nearest integer,
    a half going up. *)
Definition roundDiv (n d : Z) : Z := (2 * n + d) / (2 * d).

(** A missing array element read by destructuring is [undefined], whose
    numeric value is NaN. *)
Definition component (l : list JsNum) (i : nat) : JsNum := mjoin (l !! i).

(** Texts made of decimal digits only. *)
Definition isDigit (c : ascii) : bool :=
  let n := nat_of_ascii c in ((48 <=? n) && (n <=? 57))%nat.

Fixpoint allDigits (s : string) : bool :=
  match s with
  | String c r => isDigit c && allDigits r
  | EmptyString => true
  end.

Fixpoint anyChar (p : ascii → bool) (s : string) : bool :=
  match s with
  | String c r => p c || anyChar p r
  | EmptyString => false
  end.

(** The characters a numeric literal of JavaScript can hold: digits, signs,
    the dot, the exponent and radix marks, the hexadecimal digits, the
    letters of [Infinity], and the blanks around it. The blanks beyond ASCII
    are made of bytes from 128 on, so every such byte counts as one that a
    number can hold. What is left are characters of ASCII that [Number]
    neither strips nor reads: a text with one of them is not a number. *)
Definition isNumberChar (c : ascii) : bool :=
  isDigit c || isWhite c
  || existsb (Ascii.eqb c) (list_ascii_of_string "+-.eExXoObBaAcCdDfFInity")
  || (128 <=? nat_of_ascii c)%nat.

Definition foreign (s : string) : bool :=
  anyChar (fun c => negb (isNumberChar c)) s.

(** The blanks of JavaScript beyond ASCII, by their UTF-8 bytes: U+00A0
    (C2 A0), U+1680 (E1 9A 80), U+180E (E1 A0 8E, a blank of older hosts),
    U+2000 to U+200A, U+2028, U+2029 and U+202F (E2 80 ..), U+205F
    (E2 81 9F), U+3000 (E3 80 80) and U+FEFF (EF BB BF). *)
Definition wideBlankAt (s : string) : bool :=
  match s with
  | String a (String b r) =>
      let x := nat_of_ascii a in
      let y := nat_of_ascii b in
      ((x =? 194) && (y =? 160))%nat
      || match r with
         | String c _ =>
             let z := nat_of_ascii c in
             ((x =? 225) && (y =? 154) && (z =? 128))%nat
             || ((x =? 225) && (y =? 160) && (z =? 142))%nat
             || ((x =? 226) && (y =? 128)
                 && (((128 <=? z) && (z <=? 138)) || (z =? 168) || (z =? 169)
                     || (z =? 175)))%nat
             || ((x =? 226) && (y =? 129) && (z =? 159))%nat
             || ((x =? 227) && (y =? 128) && (z =? 128))%nat
             || ((x =? 239) && (y =? 187) && (z =? 191))%nat
         | EmptyString => false
         end
  | _ => false
  end.

Fixpoint hasWideBlank (s : string) : bool :=
  match s with
  | String _ r => wideBlankAt s || hasWideBlank r
  | EmptyString => false
  end.

End JsText.

Export JsText.

(** ** Data of the screen *)

(** [type Status = "done" | "missed" | null]. *)
Inductive Status : Type := done | missed | null.

#[global] Instance Status_eq_dec : EqDecision Status.
Proof. solve_decision. Defined.

Record Activity : Type := { id : string; name : string }.

(** [StatusByDate]: activity identifier to day identifier to status. A key
    may hold an explicit [null]; a key may also be missing. *)
Abbreviation StatusByDate := (gmap string (gmap string Status)).

(** A [Date] object is its time value, in ms since the epoch; [None] is the
    NaN of an invalid date. *)
Definition Date : Type := option Z.

(** [m?.[id]?.[iso]]: the stored value, [None] when a key is missing. *)
Definition stored (statusByDate : StatusByDate) (activityId iso : string)
  : option Status :=
  statusByDate !! activityId ≫= (.!! iso).

(** [statusByDate?.[activityId]?.[iso] ?? null]. *)
Definition getStatus (statusByDate : StatusByDate) (activityId iso : string)
  : Status :=
  default null (stored statusByDate activityId iso).

Definition cycleTodayStatus (current : Status) : Status :=
  match current with
  | done => null
  | _ => done
  end.

(** [{ ...prev, [activityId]: { ...(prev[activityId] || {}), [iso]: v } }]. *)
Definition withStatus (prev : StatusByDate) (activityId iso : string)
    (v : Status) : StatusByDate :=
  <[activityId := <[iso := v]> (default ∅ (prev !! activityId))]> prev.

(** [Array.from({ length }, (_, i) => f i)]; a NaN length gives no element. *)
Definition arrayFrom {A : Type} (len : JsNum) (f : Z → A) : list A :=
  f <$> seqZ 0 (default 0 len).

(** [a > b] on two dates compares the time values; NaN compares false. *)
Definition dateGt (a b : Date) : bool :=
  match a, b with
  | Some x, Some y => y <? x
  | _, _ => false
  end.

(** The loop [for (const id of ids) if (statusByDate?.[id]?.[iso] === "done")
    count += 1]. *)
Definition countDone (statusByDate : StatusByDate) (iso : string)
    (ids : list string) : Z :=
  fold_left
    (fun count i =>
       if decide (stored statusByDate i iso = Some done) then count + 1
       else count)
    ids 0.

(** The state of the component: the four [useState] cells that the
    engine reads and writes. *)
Record Board : Type := {
  todayISO : string;
  activities : list Activity;
  statusByDate : StatusByDate;
  lastClosedISO : option string
}.

(** [onPressCell]: only today's cell answers; its value is cycled and stored
    under its key. *)
Definition onPressCell (activityId iso : string) (st : Board) : Board :=
  if decide (iso = todayISO st) then
    let prev := statusByDate st in
    let current := getStatus prev activityId iso in
    let nextVal := cycleTodayStatus current in
    {| todayISO := todayISO st;
       activities := activities st;
       statusByDate := withStatus prev activityId iso nextVal;
       lastClosedISO := lastClosedISO st |}
  else st.

(** [addActivity]: [newName] is the text typed, [uid] the identifier drawn by
    [uid()]; a blank name adds nothing. The name kept is [trim newName],
    which is [newName.trim()] when the name holds no blank beyond ASCII. *)
Definition addActivity (newName uid : string) (st : Board) : Board :=
  match trim newName with
  | EmptyString => st
  | name =>
      {| todayISO := todayISO st;
         activities := {| id := uid; name := name |} :: activities st;
         statusByDate := statusByDate st;
         lastClosedISO := lastClosedISO st |}
  end.

(** [deleteActivity]: the alert's "Eliminar" button ([confirmed]) filters the
    activity out of the list; "Cancelar" changes nothing. *)
Definition deleteActivity (confirmed : bool) (activityId : string)
    (st : Board) : Board :=
  if confirmed then
    {| todayISO := todayISO st;
       activities := filter (fun a => id a ≠ activityId) (activities st);
       statusByDate := statusByDate st;
       lastClosedISO := lastClosedISO st |}
  else st.

(** ** The functions of the screen, over the host's local time zone *)

Section Host.

(** [LocalTZA t isUTC]: the offset of local time from UTC, in ms, at the
    instant [t] read as UTC ([true]) or as local time ([false]). *)
Variable LocalTZA : Z → bool → Z.

Definition LocalTime (t : Z) : Z := t + LocalTZA t true.
Definition UTC (t : Z) : Z := t - LocalTZA t false.

(** [new Date(year, month, date)]; years 0 to 99 stand for 1900 to 1999. *)
Definition newDate (year month date : JsNum) : Date :=
  match year, month, date with
  | Some y, Some m, Some dt =>
      let yr := if (0 <=? y) && (y <=? 99) then 1900 + y else y in
      TimeClip (UTC (MakeDate (MakeDay yr m dt) (MakeTime 0 0 0 0)))
  | _, _, _ => None
  end.

(** [d.setHours(0, 0, 0, 0)]. *)
Definition setHours0 (d : Date) : Date :=
  match d with
  | Some tv =>
      let t := LocalTime tv in
      TimeClip (UTC (MakeDate (Day t) (MakeTime 0 0 0 0)))
  | None => None
  end.

(** [d.setDate(dt)]. *)
Definition setDate (d : Date) (dt : JsNum) : Date :=
  match d, dt with
  | Some tv, Some n =>
      let t := LocalTime tv in
      TimeClip (UTC (MakeDate (MakeDay (YearFromTime t) (MonthFromTime t) n)
                              (TimeWithinDay t)))
  | _, _ => None
  end.

Definition getFullYear (d : Date) : JsNum := YearFromTime ∘ LocalTime <$> d.
Definition getMonth (d : Date) : JsNum := MonthFromTime ∘ LocalTime <$> d.
Definition getDate (d : Date) : JsNum := DateFromTime ∘ LocalTime <$> d.
Definition getTime (d : Date) : JsNum := d.

Definition pad2 (n : JsNum) : string := padStart 2 "0" (numberToString n).

Definition toISODate (d : Date) : string :=
  numberToString (getFullYear d) +:+ "-"
  +:+ pad2 (Z.succ <$> getMonth d) +:+ "-"
  +:+ pad2 (getDate d).

Definition parseISO (iso : string) : Date :=
  let parts := StringToNumber <$> split "-" iso in
  let y := component parts 0 in
  let m := component parts 1 in
  let d := component parts 2 in
  let dt := newDate y (Z.pred <$> m) d in
  setHours0 dt.

Definition addDays (date : Date) (days : Z) : Date :=
  let d := date in
  let d := setDate d ((fun n => n + days) <$> getDate d) in
  setHours0 d.

Definition addDaysISO (iso : string) (days : Z) : string :=
  toISODate (addDays (parseISO iso) days).

Definition diffDays (fromISO toISO : string) : JsNum :=
  match getTime (parseISO fromISO), getTime (parseISO toISO) with
  | Some a, Some b => Some (roundDiv (b - a) (1000 * 60 * 60 * 24))
  | _, _ => None
  end.

Definition daysInMonth (year monthIndex0 : JsNum) : JsNum :=
  getDate (newDate year (Z.succ <$> monthIndex0) (Some 0)).

(** *** Automatic closure *)

(** The body of [for (const a of activities)] for one activity. *)
Definition closeActivity (dayISO : string) (next : StatusByDate)
    (a : Activity) : StatusByDate :=
  match getStatus next (id a) dayISO with
  | null => withStatus next (id a) dayISO missed
  | _ => next
  end.

(** [for (let i = ...; i <= days; i++)], with [left] the number of values of
    [i] still to come; the loop leaves at the day equal to [todayISO]. *)
Fixpoint closeDays (activities : list Activity) (lastClosedISO todayISO : string)
    (left : nat) (i : Z) (next : StatusByDate) : StatusByDate :=
  match left with
  | O => next
  | S left' =>
      let dayISO := addDaysISO lastClosedISO i in
      if String.eqb dayISO todayISO then next
      else closeDays activities lastClosedISO todayISO left' (i + 1)
             (fold_left (closeActivity dayISO) activities next)
  end.

(** The result is the pair of [statusByDate] and [lastClosedISO]. A cursor
    that is [null] or the empty text is falsy. With [days] NaN neither
    [days <= 0] nor [i <= days] holds. *)
Definition closeMissingDays (activities : list Activity)
    (statusByDate : StatusByDate) (lastClosedISO : option string)
    (todayISO : string) : StatusByDate * string :=
  match lastClosedISO with
  | None | Some EmptyString => (statusByDate, todayISO)
  | Some lastClosed =>
      match diffDays lastClosed todayISO with
      | Some days =>
          if days <=? 0 then (statusByDate, lastClosed)
          else (closeDays activities lastClosed todayISO (Z.to_nat days) 1
                  statusByDate, todayISO)
      | None => (statusByDate, todayISO)
      end
  end.

(** *** Monthly series: number of [done] per day *)

Definition seriesValue (year monthIndex0 : JsNum) (statusByDate : StatusByDate)
    (today : Date) (activityIds : list string) (i : Z) : option Z :=
  let d := newDate year monthIndex0 (Some (i + 1)) in
  let d := setHours0 d in
  let iso := toISODate d in
  if dateGt d today then None
  else Some (countDone statusByDate iso activityIds).

(** The result is the pair of [labels] and [data]; [None] in [data] is
    [null]. *)
Definition buildMonthlySeries (year monthIndex0 : JsNum)
    (statusByDate : StatusByDate) (todayISO : string)
    : list string * list (option Z) :=
  let totalDays := daysInMonth year monthIndex0 in
  let today := parseISO todayISO in
  let labels := arrayFrom totalDays (fun i => numberToString (Some (i + 1))) in
  let activityIds := (map_to_list statusByDate).*1 in
  let data :=
    arrayFrom totalDays
      (seriesValue year monthIndex0 statusByDate today activityIds) in
  (labels, data).

(** The listener of the change to "active": today is read again from the
    clock and the missing days are closed. *)
Definition onForeground (newToday : string) (st : Board) : Board :=
  let fixed :=
    closeMissingDays (activities st) (statusByDate st) (lastClosedISO st)
      newToday in
  {| todayISO := newToday;
     activities := activities st;
     statusByDate := fixed.1;
     lastClosedISO := Some fixed.2 |}.

End Host.

(** ** The variant of the monthly series under [app/(tabs)]

    It differs from the one above in its loop alone, which runs over the
    list of activities instead of the keys of the snapshot. *)

Module Tabs.

Definition buildMonthlySeries (LocalTZA : Z → bool → Z)
    (year monthIndex0 : JsNum) (activities : list Activity)
    (statusByDate : StatusByDate) (todayISO : string)
    : list string * list (option Z) :=
  let totalDays := daysInMonth LocalTZA year monthIndex0 in
  let today := parseISO LocalTZA todayISO in
  let labels := arrayFrom totalDays (fun i => numberToString (Some (i + 1))) in
  let data :=
    arrayFrom totalDays
      (seriesValue LocalTZA year monthIndex0 statusByDate today
         (id <$> activities)) in
  (labels, data).

End Tabs.

(** ** Time zones *)

(** What the proofs ask of the host's zone: a local time and the instant it
    names fall on the same local calendar day; offsets stay within a day of
    UTC; and two offsets differ by less than half a day, which every
    daylight-saving shift does. *)
Record SaneZone (LocalTZA : Z → bool → Z) : Prop := {
  zone_day : ∀ tl, Day (LocalTime LocalTZA (UTC LocalTZA tl)) = Day tl;
  zone_near : ∀ tl, Z.abs (LocalTZA tl false) <= msPerDay;
  zone_drift : ∀ t1 t2,
    2 * Z.abs (LocalTZA t1 false - LocalTZA t2 false) < msPerDay
}.

(** A zone with one offset all year: Bogota, five hours behind UTC. *)
Definition bogota : Z → bool → Z := fun _ _ => -18000000.

(** London in 2024: an hour ahead of UTC from 31 March 01:00 UTC to
    27 October 01:00 UTC. A local time in the hour skipped in March is read
    with the offset before the change, one in the hour repeated in October
    is the earlier of the two instants. *)
Definition bstStart : Z := 19813 * msPerDay + 3600000.
Definition bstEnd : Z := 20023 * msPerDay + 3600000.

Definition london : Z → bool → Z := fun t isUTC =>
  if isUTC then
    if (bstStart <=? t) && (t <? bstEnd) then 3600000 else 0
  else
    if (bstStart + 3600000 <=? t) && (t <? bstEnd + 3600000) then 3600000
    else 0.

(** ** Day numbers and their identifiers *)

(** The identifier [toISODate] writes for the local day number [n]
    (days since 1 January 1970). *)
Definition isoOfDay (n : Z) : string :=
  numberToString (Some (YearFromDay n)) +:+ "-"
  +:+ padStart 2 "0" (numberToString (Some (MonthFromDay n + 1))) +:+ "-"
  +:+ padStart 2 "0" (numberToString (Some (DateFromDay n))).

(** The days whose identifier has the form YYYY-MM-DD: years 1000 to 9999. *)
Definition validDay (n : Z) : Prop :=
  DayFromYear 1000 <= n < DayFromYear 10000.

(** The date object of local midnight of day [n]. *)
Definition midnight (LocalTZA : Z → bool → Z) (n : Z) : Date :=
  Some (UTC LocalTZA (n * msPerDay)).

(** *** Well-formed identifiers

    The strict reading of YYYY-MM-DD: four, two and two decimal digits
    between dashes, a year from 1000 on, a month from 1 to 12, a day from 1
    to the length of the month. *)

Definition isoFields (s : string) : option (Z * Z * Z) :=
  match split "-" s with
  | [ys; ms; ds] =>
      if (String.length ys =? 4)%nat && (String.length ms =? 2)%nat
         && (String.length ds =? 2)%nat
         && allDigits ys && allDigits ms && allDigits ds
      then
        match digitsToNumber ys, digitsToNumber ms, digitsToNumber ds with
        | Some y, Some m, Some d => Some (y, m, d)
        | _, _, _ => None
        end
      else None
  | _ => None
  end.

Definition isValidISO (s : string) : bool :=
  match isoFields s with
  | Some (y, m, d) =>
      (1000 <=? y) && (1 <=? m) && (m <=? 12) && (1 <=? d)
      && (d <=? monthLength (leapDays y) (m - 1))
  | None => false
  end.

(** The day number an identifier denotes: days since 1 January 1970. *)
Definition dayOfISO (s : string) : Z :=
  match isoFields s with
  | Some (y, m, d) => MakeDay y (m - 1) d
  | None => 0
  end.

(** [l.join(sep)], the inverse of [split]. *)
Fixpoint join (sep : ascii) (l : list string) : string :=
  match l with
  | [] => EmptyString
  | [x] => x
  | x :: rest => x +:+ String sep (join sep rest)
  end.

(** The decimal numerals of [k] digits, leading zeros included. *)
Definition digitCons : list (Decimal.uint → Decimal.uint) :=
  [Decimal.D0; Decimal.D1; Decimal.D2; Decimal.D3; Decimal.D4;
   Decimal.D5; Decimal.D6; Decimal.D7; Decimal.D8; Decimal.D9].

Fixpoint numerals (k : nat) : list Decimal.uint :=
  match k with
  | O => [Decimal.Nil]
  | S k' => flat_map (fun f => List.map f (numerals k')) digitCons
  end.

(** What is checked, by running it, of every numeral of four digits and of
    every numeral of two: a year from 1000 on is below 10000 and is written
    back as it was read; a month or a day is written back, padded, as it
    was read. *)
Definition yearNumeralOk (u : Decimal.uint) : bool :=
  implb (1000 <=? Z.of_uint u)
    ((Z.of_uint u <=? 9999)
     && String.eqb (numberToString (Some (Z.of_uint u)))
          (NilEmpty.string_of_uint u)).

Definition padNumeralOk (u : Decimal.uint) : bool :=
  String.eqb (padStart 2 "0" (numberToString (Some (Z.of_uint u))))
    (NilEmpty.string_of_uint u).

(** Component [i] of an identifier is missing, or holds a character of
    ASCII that no number has. *)
Definition badComponent (iso : string) (i : nat) : bool :=
  match split "-" iso !! i with
  | Some t => foreign t
  | None => true
  end.

(** The days strictly between two day numbers. *)
Definition between (l t d : Z) : Prop := l < d < t.

(** No key of the snapshot holds an explicit [null]. *)
Definition NoNull (s : StatusByDate) : Prop :=
  ∀ a k v, stored s a k = Some v → v ≠ null.

(** What the closure leaves in a cell it visits: a status already there is
    kept, a missing key or an explicit [null] becomes [missed]. *)
Definition fill (v : option Status) : option Status :=
  match v with
  | Some done => Some done
  | Some missed | Some null | None => Some missed
  end.

(** [r] is [s] with every cell of [P] filled and nothing else changed. *)
Definition closedOver (P : string → string → Prop) (s r : StatusByDate) : Prop :=
  (∀ a k, P a k → stored r a k = fill (stored s a k))
  ∧ (∀ a k, stored r a k = stored s a k
            ∨ (P a k ∧ stored r a k = fill (stored s a k))).

(** The snapshot with the key [k] of activity [a] taken out. *)
Definition withoutKey (s : StatusByDate) (a k : string) : StatusByDate :=
  alter (delete k) a s.

(** The identifiers of the snapshot that hold [done] for the day [iso],
    whether or not an activity of the list still owns them. *)
Definition doneOn (s : StatusByDate) (iso : string) : gset string :=
  filter (fun a => stored s a iso = Some done) (dom s).

(** The activities of a list whose identifier holds [done] for the day
    [iso], each as often as the list has it. *)
Definition listedDone (s : StatusByDate) (iso : string)
    (acts : list Activity) : list Activity :=
  filter (fun a => stored s (id a) iso = Some done) acts.

(** ** The rest of the screen: the week shown, the chart, loading *)

(** WeekDay of ECMAScript: 0 is Sunday; 1 January 1970 was a Thursday. *)
Definition WeekDay (t : Z) : Z := (Day t + 4) mod 7.

(** [a + b] on numbers, either of which may be NaN. *)
Definition jsAdd (a b : JsNum) : JsNum :=
  match a, b with
  | Some x, Some y => Some (x + y)
  | _, _ => None
  end.

Definition weekdayLabels : list string := ["L"; "M"; "M"; "J"; "V"; "S"; "D"].

(** [labels.map((l) => (Number(l) % 5 === 0 ? l : ""))]; the remainder has
    the sign of the dividend, and NaN is not 0. *)
Definition sparseLabels (labels : list string) : list string :=
  (fun l =>
     match StringToNumber l with
     | Some n => if Z.rem n 5 =? 0 then l else EmptyString
     | None => EmptyString
     end) <$> labels.

(** [data.map((v) => (v == null ? 0 : v))]. *)
Definition chartValues (data : list (option Z)) : list Z :=
  (fun v => match v with Some n => n | None => 0 end) <$> data.

(** [Math.max(4, Math.max(0, ...chartValues))]. *)
Definition maxY (values : list Z) : Z :=
  let m := fold_left Z.max values 0 in
  Z.max 4 m.

(** What is kept in storage: [PersistedState]. *)
Module Saved.

Record PersistedState : Type := {
  activities : list Activity;
  statusByDate : StatusByDate;
  lastClosedISO : option string
}.

End Saved.

(** The effect "guardar": what [saveState] is given after a change of the
    state. *)
Definition persisted (st : Board) : Saved.PersistedState :=
  {| Saved.activities := activities st;
     Saved.statusByDate := statusByDate st;
     Saved.lastClosedISO := lastClosedISO st |}.

Section Screen.

Variable LocalTZA : Z → bool → Z.

Definition getDay (d : Date) : JsNum := WeekDay ∘ LocalTime LocalTZA <$> d.

Definition startOfWeekMonday (date : Date) : Date :=
  let d := date in
  let day := getDay d in
  let diff := (fun day => if day =? 0 then -6 else 1 - day) <$> day in
  let d := setDate LocalTZA d (jsAdd (getDate LocalTZA d) diff) in
  setHours0 LocalTZA d.

(** [weekStart] and [weekDates] of the component. *)
Definition weekStart (todayISO : string) : Date :=
  startOfWeekMonday (parseISO LocalTZA todayISO).

Definition weekDates (todayISO : string) : list Date :=
  arrayFrom (Some 7) (fun i => addDays LocalTZA (weekStart todayISO) i).

(** The body shared by the first load and by [reloadFromStorage] once a
    saved state was found: the state is set from it, the missing days are
    closed, and the result is saved. The pair is the new state and what
    [saveState] is given. *)
Definition loadSaved (saved : Saved.PersistedState) (st : Board)
    : Board * Saved.PersistedState :=
  let fixed :=
    closeMissingDays LocalTZA (Saved.activities saved)
      (Saved.statusByDate saved) (Saved.lastClosedISO saved) (todayISO st) in
  ({| todayISO := todayISO st;
      activities := Saved.activities saved;
      statusByDate := fixed.1;
      lastClosedISO := Some fixed.2 |},
   {| Saved.activities := Saved.activities saved;
      Saved.statusByDate := fixed.1;
      Saved.lastClosedISO := Some fixed.2 |}).

(** The effect of the first load, given what [loadState] found. With
    nothing saved the board starts empty with today as the cursor. *)
Definition initialLoad (saved : option Saved.PersistedState) (st : Board)
    : Board * Saved.PersistedState :=
  match saved with
  | None =>
      ({| todayISO := todayISO st;
          activities := [];
          statusByDate := ∅;
          lastClosedISO := Some (todayISO st) |},
       {| Saved.activities := [];
          Saved.statusByDate := ∅;
          Saved.lastClosedISO := Some (todayISO st) |})
  | Some sv => loadSaved sv st
  end.

(** [reloadFromStorage], given what [loadState] found: with nothing saved
    it returns at once and saves nothing. *)
Definition reloadFromStorage (saved : option Saved.PersistedState)
    (st : Board) : Board * option Saved.PersistedState :=
  match saved with
  | None => (st, None)
  | Some sv => let r := loadSaved sv st in (r.1, Some r.2)
  end.

End Screen.

(** ** Sample data: the scenarios of the specification *)

Definition actX : Activity := {| id := "X"; name := "X" |}.

(** [X] marked done on 2 January 2024. *)
Definition doneJan2 : StatusByDate :=
  {[ "X"%string := {[ "2024-01-02"%string := done ]} ]}.

(** [X] done on 2 January, then toggled off: the key holds [null]. *)
Definition nullJan2 : StatusByDate :=
  {[ "X"%string := {[ "2024-01-02"%string := null ]} ]}.

(** A board on 4 January 2024 where [X] is done today. *)
Definition boardJan4 : Board :=
  {| todayISO := "2024-01-04";
     activities := [actX];
     statusByDate := {[ "X"%string := {[ "2024-01-04"%string := done ]} ]};
     lastClosedISO := Some "2024-01-04"%string |}.

(** A board in March 2024 where [X] was done on the 5th. *)
Definition doneMar5 : StatusByDate :=
  {[ "X"%string := {[ "2024-03-05"%string := done ]} ]}.

Definition boardMar15 : Board :=
  {| todayISO := "2024-03-15";
     activities := [actX];
     statusByDate := doneMar5;
     lastClosedISO := Some "2024-03-15"%string |}.

(** * Proofs *)

(** ** The calendar *)

Ltac zdiv := Z.div_mod_to_equations; lia.

Section CalendarFacts.

Lemma DayFromYear_succ y : DayFromYear (y + 1) = DayFromYear y + DaysInYear y.
Proof.
  unfold DayFromYear, DaysInYear, isLeap.
  destruct (Z.eqb_spec (y mod 4) 0); destruct (Z.eqb_spec (y mod 100) 0);
    destruct (Z.eqb_spec (y mod 400) 0); cbn [andb orb negb]; zdiv.
Qed.

Lemma DaysInYear_leapDays y : DaysInYear y = 365 + leapDays y.
Proof. unfold DaysInYear, leapDays. by destruct (isLeap y). Qed.

Lemma leapDays_range y : 0 <= leapDays y <= 1.
Proof. unfold leapDays. destruct (isLeap y); lia. Qed.

Lemma DayFromYear_lt y y' : y < y' → DayFromYear y < DayFromYear y'.
Proof. unfold DayFromYear. intros. zdiv. Qed.

Lemma DayFromYear_le y y' : y <= y' → DayFromYear y <= DayFromYear y'.
Proof. unfold DayFromYear. intros. zdiv. Qed.

Lemma YearFromDay_spec day :
  DayFromYear (YearFromDay day) <= day < DayFromYear (YearFromDay day + 1).
Proof.
  unfold YearFromDay.
  set (y := 1970 + 400 * day / 146097).
  assert (Hlo : DayFromYear (y - 1) <= day)
    by (subst y; unfold DayFromYear; zdiv).
  assert (Hhi : day < DayFromYear (y + 1 + 1))
    by (subst y; unfold DayFromYear; zdiv).
  destruct (Z.ltb_spec day (DayFromYear y)).
  - replace (y - 1 + 1) with y by lia. lia.
  - destruct (Z.leb_spec (DayFromYear (y + 1)) day); lia.
Qed.

Lemma YearFromDay_unique day y :
  DayFromYear y <= day < DayFromYear (y + 1) → YearFromDay day = y.
Proof.
  intros Hy. pose proof (YearFromDay_spec day) as Hs.
  destruct (Z.lt_trichotomy (YearFromDay day) y) as [Hlt | [Heq | Hgt]];
    [| done |].
  - pose proof (DayFromYear_le (YearFromDay day + 1) y). lia.
  - pose proof (DayFromYear_le (y + 1) (YearFromDay day)). lia.
Qed.

Lemma DayWithinYear_range day :
  0 <= DayWithinYear day < 365 + leapDays (YearFromDay day).
Proof.
  unfold DayWithinYear. pose proof (YearFromDay_spec day) as Hs.
  rewrite DayFromYear_succ, DaysInYear_leapDays in Hs. lia.
Qed.

Lemma MonthFromDay_range day : 0 <= MonthFromDay day <= 11.
Proof. unfold MonthFromDay. repeat case_match; lia. Qed.

Lemma DateFromDay_range day : 1 <= DateFromDay day <= 31.
Proof.
  unfold DateFromDay, MonthFromDay.
  pose proof (DayWithinYear_range day). pose proof (leapDays_range (YearFromDay day)).
  repeat (match goal with |- context [?a <? ?b] => destruct (Z.ltb_spec a b) end);
    cbn [daysBeforeMonth]; lia.
Qed.

Lemma DateFromDay_month day :
  DateFromDay day
  <= monthLength (leapDays (YearFromDay day)) (MonthFromDay day).
Proof.
  unfold DateFromDay, MonthFromDay.
  pose proof (DayWithinYear_range day). pose proof (leapDays_range (YearFromDay day)).
  repeat (match goal with |- context [?a <? ?b] => destruct (Z.ltb_spec a b) end);
    cbn [daysBeforeMonth monthLength]; lia.
Qed.

(** The month and date tables invert [MakeDay], and a date beyond the month's
    end runs on into the following days. *)
Lemma MakeDay_civil day k :
  MakeDay (YearFromDay day) (MonthFromDay day) (DateFromDay day + k) = day + k.
Proof.
  pose proof (MonthFromDay_range day) as Hm.
  unfold MakeDay.
  replace (MonthFromDay day / 12) with 0 by zdiv.
  replace (MonthFromDay day mod 12) with (MonthFromDay day) by zdiv.
  rewrite Z.add_0_r. unfold DateFromDay, DayWithinYear. lia.
Qed.

Lemma validDay_year n : validDay n → 1000 <= YearFromDay n <= 9999.
Proof.
  unfold validDay. intros Hn. pose proof (YearFromDay_spec n) as Hs.
  destruct (Z.le_gt_cases 1000 (YearFromDay n)) as [H1 | H1].
  - destruct (Z.le_gt_cases (YearFromDay n) 9999) as [H2 | H2]; [lia |].
    pose proof (DayFromYear_le 10000 (YearFromDay n)). lia.
  - pose proof (DayFromYear_le (YearFromDay n + 1) 1000). lia.
Qed.

(** Day [dt] of month [mn] of year [y] lies in that year, month and date. *)
Lemma MakeDay_within y mn dt :
  0 <= mn <= 11 → 1 <= dt <= monthLength (leapDays y) mn →
  YearFromDay (MakeDay y mn dt) = y ∧
  MonthFromDay (MakeDay y mn dt) = mn ∧
  DateFromDay (MakeDay y mn dt) = dt.
Proof.
  intros Hm Hd. pose proof (leapDays_range y) as Hl.
  assert (Hday : MakeDay y mn dt
                 = DayFromYear y + daysBeforeMonth (leapDays y) mn + dt - 1).
  { unfold MakeDay. replace (mn / 12) with 0 by zdiv.
    replace (mn mod 12) with mn by zdiv. by rewrite Z.add_0_r. }
  assert (Hw : 0 <= daysBeforeMonth (leapDays y) mn + dt - 1 < 365 + leapDays y).
  { assert (Hc : mn = 0 ∨ mn = 1 ∨ mn = 2 ∨ mn = 3 ∨ mn = 4 ∨ mn = 5 ∨ mn = 6
                 ∨ mn = 7 ∨ mn = 8 ∨ mn = 9 ∨ mn = 10 ∨ mn = 11) by lia.
    destruct_or!; subst mn; cbn [daysBeforeMonth monthLength] in *; lia. }
  assert (Hy : YearFromDay (MakeDay y mn dt) = y).
  { apply YearFromDay_unique.
    rewrite DayFromYear_succ, DaysInYear_leapDays, Hday. lia. }
  assert (Hmn : MonthFromDay (MakeDay y mn dt) = mn).
  { unfold MonthFromDay, DayWithinYear. rewrite Hy, Hday.
    assert (Hc : mn = 0 ∨ mn = 1 ∨ mn = 2 ∨ mn = 3 ∨ mn = 4 ∨ mn = 5 ∨ mn = 6
                 ∨ mn = 7 ∨ mn = 8 ∨ mn = 9 ∨ mn = 10 ∨ mn = 11) by lia.
    destruct_or!; subst mn; cbn [daysBeforeMonth monthLength] in *;
      repeat (match goal with
              | |- context [?a <? ?b] => destruct (Z.ltb_spec a b); try lia
              end). }
  split; [done |]. split; [done |].
  unfold DateFromDay, DayWithinYear. rewrite Hmn, Hy, Hday. lia.
Qed.

End CalendarFacts.

(** ** Writing and reading numbers *)

Section TextFacts.

Local Open Scope string_scope.

Lemma string_of_uint_digits d : allDigits (NilEmpty.string_of_uint d) = true.
Proof. induction d; cbn; auto. Qed.

Lemma isDigit_cases c :
  isDigit c = true →
  isWhite c = false ∧ Ascii.eqb c "-" = false ∧ c ≠ "-"%char ∧ c ≠ "+"%char.
Proof.
  destruct c as [[] [] [] [] [] [] [] []]; cbv; intros; try discriminate;
    repeat split; done.
Qed.

Lemma trimStart_digits s : allDigits s = true → trimStart s = s.
Proof.
  destruct s as [| c r]; cbn; [done |]. intros [Hc _]%andb_prop.
  by destruct (isDigit_cases c Hc) as (-> & _).
Qed.

Lemma trimEnd_digits s : allDigits s = true → trimEnd s = s.
Proof.
  induction s as [| c r IH]; cbn; [done |]. intros [Hc Hr]%andb_prop.
  rewrite (IH Hr). destruct (isDigit_cases c Hc) as (-> & _). by destruct r.
Qed.

Lemma StringToNumber_digits s :
  allDigits s = true → s ≠ "" → StringToNumber s = digitsToNumber s.
Proof.
  intros Hs Hne. unfold StringToNumber, trim.
  rewrite (trimStart_digits s Hs), (trimEnd_digits s Hs).
  destruct s as [| c r]; [done |]. cbn in Hs. apply andb_prop in Hs as [Hc _].
  destruct c as [[] [] [] [] [] [] [] []]; try discriminate Hc; reflexivity.
Qed.

Lemma numberToString_uint z :
  0 <= z →
  ∃ u, numberToString (Some z) = NilEmpty.string_of_uint u
       ∧ u ≠ Decimal.Nil ∧ Z.of_uint u = z.
Proof.
  intros Hz. pose proof (DecimalZ.of_to z) as Hof.
  unfold numberToString. destruct z as [| p | p]; [| | lia].
  - exists Decimal.zero. done.
  - exists (Pos.to_uint p). cbn in *. split; [done |]. split; [| done].
    apply DecimalPos.Unsigned.to_uint_nonnil.
Qed.

Lemma string_of_uint_nonempty u :
  u ≠ Decimal.Nil → NilEmpty.string_of_uint u ≠ "".
Proof. by destruct u. Qed.

Lemma numberToString_digits z :
  0 <= z → allDigits (numberToString (Some z)) = true
           ∧ numberToString (Some z) ≠ "".
Proof.
  intros (u & -> & Hu & _)%numberToString_uint.
  split; [apply string_of_uint_digits | by apply string_of_uint_nonempty].
Qed.

Lemma digitsToNumber_uint u :
  u ≠ Decimal.Nil →
  digitsToNumber (NilEmpty.string_of_uint u) = Some (Z.of_uint u).
Proof.
  intros Hu. unfold digitsToNumber. rewrite NilEmpty.usu.
  by destruct u.
Qed.

(** Reading back what [String(n)] wrote. *)
Lemma StringToNumber_numberToString z :
  0 <= z → StringToNumber (numberToString (Some z)) = Some z.
Proof.
  intros Hz. destruct (numberToString_digits z Hz) as [Hd Hne].
  rewrite StringToNumber_digits by done.
  destruct (numberToString_uint z Hz) as (u & -> & Hu & <-).
  by apply digitsToNumber_uint.
Qed.

Lemma repeatChar_zero_digits n s :
  allDigits s = true → allDigits (repeatChar n "0" +:+ s) = true.
Proof. intros Hs. induction n; cbn; auto. Qed.

Lemma digitsToNumber_zero s :
  s ≠ "" → digitsToNumber (String "0" s) = digitsToNumber s.
Proof.
  intros Hs. unfold digitsToNumber. destruct s as [| c r]; [done |].
  cbn [NilEmpty.uint_of_string].
  destruct (uint_of_char c (NilEmpty.uint_of_string r)); reflexivity.
Qed.

Lemma digitsToNumber_zeros n s :
  s ≠ "" → digitsToNumber (repeatChar n "0" +:+ s) = digitsToNumber s.
Proof.
  intros Hs. induction n as [| n IH]; [done |].
  change (repeatChar (S n) "0" +:+ s) with (String "0" (repeatChar n "0" +:+ s)).
  rewrite digitsToNumber_zero; [done |]. by destruct n, s.
Qed.

(** Reading back a number written with [padStart]. *)
Lemma padStart_digits w z :
  0 <= z →
  allDigits (padStart w "0" (numberToString (Some z))) = true
  ∧ StringToNumber (padStart w "0" (numberToString (Some z))) = Some z.
Proof.
  intros Hz. destruct (numberToString_digits z Hz) as [Hd Hne].
  unfold padStart.
  assert (Hall : allDigits
            (repeatChar (w - String.length (numberToString (Some z))) "0"
             +:+ numberToString (Some z)) = true)
    by by apply repeatChar_zero_digits.
  split; [done |].
  rewrite StringToNumber_digits; [| done |].
  - rewrite digitsToNumber_zeros by done.
    rewrite <- StringToNumber_digits by done.
    by apply StringToNumber_numberToString.
  - destruct (w - String.length (numberToString (Some z)))%nat; [done |].
    discriminate.
Qed.

Lemma split_digits c s :
  allDigits s = true → isDigit c = false → split c s = [s].
Proof.
  intros Hs Hc. induction s as [| a r IH]; cbn [split]; [done |].
  cbn [allDigits] in Hs. apply andb_prop in Hs as [Ha Hr].
  destruct (Ascii.eqb_spec a c) as [-> | _]; [congruence |].
  by rewrite (IH Hr).
Qed.

Lemma split_app c s r :
  allDigits s = true → isDigit c = false →
  split c (s +:+ String c r) = s :: split c r.
Proof.
  intros Hs Hc. induction s as [| a s' IH].
  - change (split c (String c r) = "" :: split c r).
    cbn [split]. by rewrite Ascii.eqb_refl.
  - change (split c (String a (s' +:+ String c r)) = String a s' :: split c r).
    cbn [split]. cbn [allDigits] in Hs. apply andb_prop in Hs as [Ha Hr].
    destruct (Ascii.eqb_spec a c) as [-> | _]; [congruence |].
    by rewrite (IH Hr).
Qed.

Lemma isoOfDay_split n :
  0 <= YearFromDay n →
  split "-" (isoOfDay n)
  = [numberToString (Some (YearFromDay n));
     padStart 2 "0" (numberToString (Some (MonthFromDay n + 1)));
     padStart 2 "0" (numberToString (Some (DateFromDay n)))].
Proof.
  intros Hy. pose proof (MonthFromDay_range n) as Hm.
  pose proof (DateFromDay_range n) as Hd.
  destruct (numberToString_digits _ Hy) as [Hyd _].
  destruct (padStart_digits 2 (MonthFromDay n + 1)) as [Hmd _]; [lia |].
  destruct (padStart_digits 2 (DateFromDay n)) as [Hdd _]; [lia |].
  unfold isoOfDay.
  change ("-" +:+ ?x) with (String "-" x).
  rewrite split_app by done.
  change ("-" +:+ ?x) with (String "-" x).
  rewrite split_app by done.
  by rewrite split_digits by done.
Qed.

(** The three numbers [parseISO] reads in an identifier written by
    [toISODate]. *)
Lemma isoOfDay_parts n :
  0 <= YearFromDay n →
  StringToNumber <$> split "-" (isoOfDay n)
  = [Some (YearFromDay n); Some (MonthFromDay n + 1); Some (DateFromDay n)].
Proof.
  intros Hy. pose proof (MonthFromDay_range n) as Hm.
  pose proof (DateFromDay_range n) as Hd.
  destruct (padStart_digits 2 (MonthFromDay n + 1)) as [_ Hmv]; [lia |].
  destruct (padStart_digits 2 (DateFromDay n)) as [_ Hdv]; [lia |].
  rewrite isoOfDay_split by done.
  cbn [fmap list_fmap]. rewrite Hmv, Hdv.
  by rewrite StringToNumber_numberToString.
Qed.

Lemma trimStart_foreign s : foreign (trimStart s) = foreign s.
Proof.
  induction s as [| c r IH]; [done |]. cbn [trimStart].
  destruct (isWhite c) eqn:Hc; [| done].
  rewrite IH. unfold foreign at 2. cbn [anyChar]. unfold isNumberChar.
  rewrite Hc, orb_true_r. done.
Qed.

Lemma trimEnd_foreign s : foreign (trimEnd s) = foreign s.
Proof.
  unfold foreign.
  induction s as [| c r IH]; [done |]. cbn [trimEnd anyChar].
  rewrite <- IH. destruct (trimEnd r) as [| c' r']; [| done].
  destruct (isWhite c) eqn:Hc; cbn [anyChar]; [| done].
  unfold isNumberChar. rewrite Hc, orb_true_r. done.
Qed.

Lemma digitsToNumber_foreign s z : digitsToNumber s = Some z → foreign s = false.
Proof.
  intros Hz.
  assert (Hu : ∃ u, NilEmpty.uint_of_string s = Some u).
  { unfold digitsToNumber in Hz. destruct s; [done |].
    destruct (NilEmpty.uint_of_string _); [by eexists | done]. }
  clear Hz. destruct Hu as [u Hu]. revert u Hu. unfold foreign.
  induction s as [| c r IH]; [done |]. intros u Hu.
  cbn [NilEmpty.uint_of_string] in Hu.
  destruct (NilEmpty.uint_of_string r) as [u' |] eqn:Hr; [| done].
  cbn [anyChar]. rewrite (IH u' eq_refl), orb_false_r.
  destruct c as [[] [] [] [] [] [] [] []]; try discriminate Hu; reflexivity.
Qed.

(** A text with a character of ASCII that no number has reads as NaN. *)
Lemma StringToNumber_foreign s : foreign s = true → StringToNumber s = None.
Proof.
  intros Hf. destruct (StringToNumber s) as [z |] eqn:Hz; [| done].
  exfalso. rewrite <- trimStart_foreign, <- trimEnd_foreign in Hf.
  unfold StringToNumber in Hz. fold (trim s) in Hf.
  destruct (trim s) as [| c r]; [done |].
  assert (Hsign : ∀ c' z', isNumberChar c' = true →
                    digitsToNumber r = Some z' →
                    foreign (String c' r) = false).
  { intros c' z' Hc' Hd. unfold foreign. cbn [anyChar]. rewrite Hc'.
    exact (digitsToNumber_foreign r z' Hd). }
  destruct c as [[] [] [] [] [] [] [] []];
    first
      [ pose proof (digitsToNumber_foreign _ z Hz); congruence
      | change (Z.opp <$> digitsToNumber r = Some z) in Hz;
        destruct (digitsToNumber r) as [z' |] eqn:Hd; [| discriminate Hz];
        by rewrite (Hsign "-"%char z' eq_refl eq_refl) in Hf
      | change (digitsToNumber r = Some z) in Hz;
        by rewrite (Hsign "+"%char z eq_refl Hz) in Hf ].
Qed.

End TextFacts.

(** ** Dates in a sane zone *)

Section ZoneFacts.

Variable tz : Z → bool → Z.
Hypothesis sane : SaneZone tz.

Lemma TimeClip_in t : Z.abs t <= 8640000000000000 → TimeClip t = Some t.
Proof. unfold TimeClip. intros H. by destruct (Z.leb_spec (Z.abs t) 8640000000000000); [| lia]. Qed.

(** Any local time of a day within ninety million days of the epoch names an
    instant that is a date. *)
Lemma TimeClip_local n w :
  -90000000 <= n <= 90000000 → 0 <= w < msPerDay →
  TimeClip (UTC tz (n * msPerDay + w)) = Some (UTC tz (n * msPerDay + w)).
Proof.
  intros Hn Hw. apply TimeClip_in. unfold UTC.
  pose proof (zone_near tz sane (n * msPerDay + w)) as Hnear.
  unfold msPerDay in *. lia.
Qed.

Lemma Day_local n w :
  0 <= w < msPerDay → Day (LocalTime tz (UTC tz (n * msPerDay + w))) = n.
Proof.
  intros Hw. rewrite (zone_day tz sane). unfold Day, msPerDay in *. zdiv.
Qed.

Lemma validDay_clip n : validDay n → -90000000 <= n <= 90000000.
Proof. unfold validDay, DayFromYear. zdiv. Qed.

Lemma setHours0_local n w :
  -90000000 <= n <= 90000000 → 0 <= w < msPerDay →
  setHours0 tz (Some (UTC tz (n * msPerDay + w))) = midnight tz n.
Proof.
  intros Hn Hw. unfold setHours0, midnight, MakeDate, MakeTime.
  rewrite (Day_local n w Hw).
  replace (n * msPerDay + (0 * 3600000 + 0 * 60000 + 0 * 1000 + 0))
    with (n * msPerDay + 0) by lia.
  rewrite TimeClip_local by (unfold msPerDay; lia).
  by rewrite Z.add_0_r.
Qed.

Lemma setHours0_midnight n :
  -90000000 <= n <= 90000000 → setHours0 tz (midnight tz n) = midnight tz n.
Proof.
  intros Hn.
  assert (Hw : 0 <= 0 < msPerDay) by (unfold msPerDay; lia).
  pose proof (setHours0_local n 0 Hn Hw) as H.
  by rewrite Z.add_0_r in H.
Qed.

Lemma getters_midnight n :
  getFullYear tz (midnight tz n) = Some (YearFromDay n)
  ∧ getMonth tz (midnight tz n) = Some (MonthFromDay n)
  ∧ getDate tz (midnight tz n) = Some (DateFromDay n).
Proof.
  unfold getFullYear, getMonth, getDate, midnight,
    YearFromTime, MonthFromTime, DateFromTime.
  cbn [fmap option_fmap option_map compose].
  rewrite <- (Z.add_0_r (n * msPerDay)).
  rewrite Day_local by (unfold msPerDay; lia). done.
Qed.

(** [toISODate] writes the identifier of the local day. *)
Lemma toISODate_midnight n : toISODate tz (midnight tz n) = isoOfDay n.
Proof.
  unfold toISODate, pad2.
  destruct (getters_midnight n) as (-> & -> & ->). done.
Qed.

Lemma newDate_day y m dt :
  ¬ (0 <= y <= 99) → -90000000 <= MakeDay y m dt <= 90000000 →
  newDate tz (Some y) (Some m) (Some dt) = midnight tz (MakeDay y m dt).
Proof.
  intros Hy Hn. unfold newDate, midnight, MakeDate, MakeTime.
  replace ((0 <=? y) && (y <=? 99)) with false.
  2: { symmetry. apply andb_false_iff.
       destruct (Z.leb_spec 0 y), (Z.leb_spec y 99); auto; lia. }
  replace (MakeDay y m dt * msPerDay + (0 * 3600000 + 0 * 60000 + 0 * 1000 + 0))
    with (MakeDay y m dt * msPerDay + 0) by lia.
  rewrite TimeClip_local by (done || unfold msPerDay; lia).
  by rewrite Z.add_0_r.
Qed.

(** [parseISO] reads the identifier of a day back to its midnight. *)
Lemma parseISO_isoOfDay n : validDay n → parseISO tz (isoOfDay n) = midnight tz n.
Proof.
  intros Hn. pose proof (validDay_year n Hn) as Hy.
  pose proof (validDay_clip n Hn) as Hc.
  unfold parseISO. rewrite isoOfDay_parts by lia.
  cbn [component lookup list_lookup mjoin option_join fmap option_fmap option_map].
  pose proof (MakeDay_civil n 0) as Hciv. rewrite !Z.add_0_r in Hciv.
  replace (Z.pred (MonthFromDay n + 1)) with (MonthFromDay n) by lia.
  rewrite newDate_day by (rewrite ?Hciv; lia).
  rewrite Hciv. by apply setHours0_midnight.
Qed.

Lemma addDays_midnight n k :
  -90000000 <= n <= 90000000 → -90000000 <= n + k <= 90000000 →
  addDays tz (midnight tz n) k = midnight tz (n + k).
Proof.
  intros Hn Hk. unfold addDays.
  destruct (getters_midnight n) as (_ & _ & ->).
  cbn [fmap option_fmap option_map].
  unfold setDate, midnight at 1, YearFromTime, MonthFromTime, MakeDate.
  set (t := LocalTime tz (UTC tz (n * msPerDay))).
  assert (Ht : Day t = n).
  { subst t. rewrite <- (Z.add_0_r (n * msPerDay)).
    apply Day_local. unfold msPerDay; lia. }
  rewrite Ht, MakeDay_civil.
  assert (Hw : 0 <= TimeWithinDay t < msPerDay)
    by (unfold TimeWithinDay, msPerDay; zdiv).
  rewrite TimeClip_local by done.
  by apply setHours0_local.
Qed.

Lemma addDaysISO_isoOfDay n k :
  validDay n → validDay (n + k) → addDaysISO tz (isoOfDay n) k = isoOfDay (n + k).
Proof.
  intros Hn Hk. unfold addDaysISO.
  rewrite parseISO_isoOfDay by done.
  rewrite addDays_midnight by by apply validDay_clip.
  apply toISODate_midnight.
Qed.

(** Local midnights are less than half a day away from a whole number of
    days apart, and [Math.round] recovers that number. *)
Lemma diffDays_isoOfDay l t :
  validDay l → validDay t → diffDays tz (isoOfDay l) (isoOfDay t) = Some (t - l).
Proof.
  intros Hl Ht. unfold diffDays, getTime.
  rewrite !parseISO_isoOfDay by done.
  unfold midnight, UTC, roundDiv. f_equal.
  pose proof (zone_drift tz sane (l * msPerDay) (t * msPerDay)) as Hd.
  unfold msPerDay in *.
  change (1000 * 60 * 60 * 24) with 86400000.
  zdiv.
Qed.

(** Midnights are ordered as their days. *)
Lemma dateGt_midnight n n' :
  dateGt (midnight tz n) (midnight tz n') = bool_decide (n' < n).
Proof.
  unfold dateGt, midnight, UTC.
  pose proof (zone_drift tz sane (n * msPerDay) (n' * msPerDay)) as Hd.
  unfold msPerDay in *.
  destruct (decide (n = n')) as [-> | Hne].
  - rewrite Z.ltb_irrefl. by rewrite bool_decide_eq_false_2 by lia.
  - case_bool_decide; [apply Z.ltb_lt | apply Z.ltb_ge]; lia.
Qed.

End ZoneFacts.

(** Distinct days of the YYYY-MM-DD range have distinct identifiers. *)
Lemma isoOfDay_inj n n' :
  validDay n → validDay n' → isoOfDay n = isoOfDay n' → n = n'.
Proof.
  intros Hn Hn' Heq.
  pose proof (MakeDay_civil n 0) as H1. pose proof (MakeDay_civil n' 0) as H2.
  pose proof (isoOfDay_parts n) as P1. pose proof (isoOfDay_parts n') as P2.
  pose proof (validDay_year n Hn). pose proof (validDay_year n' Hn').
  rewrite Heq in P1. rewrite P2 in P1 by lia.
  specialize (P1 ltac:(lia)). injection P1 as Hy Hm Hd.
  rewrite !Z.add_0_r in *.
  rewrite <- H1, <- H2. f_equal; lia.
Qed.

Lemma MakeDay_valid y mn dt :
  1000 <= y <= 9999 → 0 <= mn <= 11 → 1 <= dt <= monthLength (leapDays y) mn →
  validDay (MakeDay y mn dt).
Proof.
  intros Hy Hm Hd. destruct (MakeDay_within y mn dt Hm Hd) as (Hyr & _ & _).
  pose proof (YearFromDay_spec (MakeDay y mn dt)) as Hs. rewrite Hyr in Hs.
  pose proof (DayFromYear_le 1000 y). pose proof (DayFromYear_le (y + 1) 10000).
  unfold validDay. lia.
Qed.

(** ** Well-formed identifiers are the identifiers [toISODate] writes *)

Section IdentifierFacts.

Local Open Scope string_scope.

Lemma split_cons c s : ∃ x xs, split c s = x :: xs.
Proof.
  destruct s as [| a r]; cbn [split]; [by eexists _, _ |].
  destruct (Ascii.eqb a c); [by eexists _, _ |].
  destruct (split c r); by eexists _, _.
Qed.

Lemma join_split c s : join c (split c s) = s.
Proof.
  induction s as [| a r IH]; [done |]. cbn [split].
  destruct (Ascii.eqb_spec a c) as [-> | Hne].
  - destruct (split_cons c r) as (x & xs & Hx). rewrite Hx in *.
    change (join c ("" :: x :: xs)) with (String c (join c (x :: xs))).
    by rewrite IH.
  - destruct (split_cons c r) as (x & xs & Hx). rewrite Hx in *.
    destruct xs as [| x' xs]; rewrite <- IH; reflexivity.
Qed.

Lemma digits_uint s :
  allDigits s = true →
  ∃ u, NilEmpty.uint_of_string s = Some u
       ∧ Decimal.nb_digits u = String.length s
       ∧ NilEmpty.string_of_uint u = s.
Proof.
  induction s as [| c r IH]; cbn [allDigits].
  - intros _. by exists Decimal.Nil.
  - intros [Hc Hr]%andb_prop. destruct (IH Hr) as (u & Hu & Hn & Hs).
    cbn [NilEmpty.uint_of_string String.length]. rewrite Hu.
    destruct c as [[] [] [] [] [] [] [] []]; try discriminate Hc;
      eexists; (split; [reflexivity |]); cbn; by rewrite Hn, Hs.
Qed.

Lemma numerals_complete u : In u (numerals (Decimal.nb_digits u)).
Proof.
  induction u; cbn [Decimal.nb_digits numerals]; [by left | ..];
    apply in_flat_map; eexists; (split; [| by apply in_map]);
    cbn; tauto.
Qed.

Lemma year_numerals : forallb yearNumeralOk (numerals 4) = true.
Proof. vm_compute. reflexivity. Qed.

Lemma pad_numerals : forallb padNumeralOk (numerals 2) = true.
Proof. vm_compute. reflexivity. Qed.

(** A year read from four digits is written back as it was read. *)
Lemma year_text ys y :
  allDigits ys = true → String.length ys = 4%nat →
  digitsToNumber ys = Some y → 1000 <= y →
  y <= 9999 ∧ numberToString (Some y) = ys.
Proof.
  intros Hd Hlen Hy Hlo. destruct (digits_uint ys Hd) as (u & Hu & Hn & Hs).
  assert (Hyu : y = Z.of_uint u).
  { unfold digitsToNumber in Hy. rewrite Hu in Hy.
    destruct ys; [done |]. by injection Hy. }
  pose proof (numerals_complete u) as Hin. rewrite Hn, Hlen in Hin.
  pose proof (proj1 (forallb_forall _ _) year_numerals u Hin) as Hok.
  unfold yearNumeralOk in Hok. rewrite <- Hyu in Hok.
  rewrite (proj2 (Z.leb_le 1000 y) Hlo) in Hok. cbn [implb] in Hok.
  apply andb_prop in Hok as [Hhi Heq].
  apply Z.leb_le in Hhi. apply String.eqb_eq in Heq. by rewrite Heq, Hs.
Qed.

(** A month or a day read from two digits is written back as it was read. *)
Lemma pad_text ds d :
  allDigits ds = true → String.length ds = 2%nat →
  digitsToNumber ds = Some d →
  padStart 2 "0" (numberToString (Some d)) = ds.
Proof.
  intros Hd Hlen Hy. destruct (digits_uint ds Hd) as (u & Hu & Hn & Hs).
  assert (Hyu : d = Z.of_uint u).
  { unfold digitsToNumber in Hy. rewrite Hu in Hy.
    destruct ds; [done |]. by injection Hy. }
  pose proof (numerals_complete u) as Hin. rewrite Hn, Hlen in Hin.
  pose proof (proj1 (forallb_forall _ _) pad_numerals u Hin) as Hok.
  unfold padNumeralOk in Hok. rewrite <- Hyu in Hok.
  apply String.eqb_eq in Hok. by rewrite Hok, Hs.
Qed.

Lemma isoFields_split s y m d :
  isoFields s = Some (y, m, d) →
  ∃ ys ms ds,
    s = ys +:+ String "-" (ms +:+ String "-" ds)
    ∧ (allDigits ys = true ∧ String.length ys = 4%nat
       ∧ digitsToNumber ys = Some y)
    ∧ (allDigits ms = true ∧ String.length ms = 2%nat
       ∧ digitsToNumber ms = Some m)
    ∧ (allDigits ds = true ∧ String.length ds = 2%nat
       ∧ digitsToNumber ds = Some d).
Proof.
  unfold isoFields. intros H. pose proof (join_split "-" s) as Hj.
  destruct (split "-" s) as [| ys [| ms [| ds [| ? ?]]]]; try done.
  destruct (_ && _) eqn:Hc in H; [| done].
  repeat (apply andb_prop in Hc as [Hc ?]).
  destruct (digitsToNumber ys) as [y' |] eqn:Hy; [| done].
  destruct (digitsToNumber ms) as [m' |] eqn:Hm; [| done].
  destruct (digitsToNumber ds) as [d' |] eqn:Hd; [| done].
  injection H as -> -> ->. exists ys, ms, ds.
  cbn [join] in Hj. split; [done |].
  repeat split; try done; by apply Nat.eqb_eq.
Qed.

(** A well-formed identifier is the one [toISODate] writes for its day. *)
Lemma isValidISO_sound s :
  isValidISO s = true → validDay (dayOfISO s) ∧ isoOfDay (dayOfISO s) = s.
Proof.
  unfold isValidISO, dayOfISO.
  destruct (isoFields s) as [[[y m] d] |] eqn:Hf; [| done].
  intros Hr.
  apply andb_prop in Hr as [Hr Hd2]. apply andb_prop in Hr as [Hr Hd1].
  apply andb_prop in Hr as [Hr Hm2]. apply andb_prop in Hr as [Hr Hm1].
  apply Z.leb_le in Hr, Hm1, Hm2, Hd1, Hd2.
  destruct (isoFields_split s y m d Hf)
    as (ys & ms & ds & -> & (Hyd & Hyl & Hyv) & (Hmd & Hml & Hmv)
        & (Hdd & Hdl & Hdv)).
  destruct (year_text ys y Hyd Hyl Hyv Hr) as [Hhi Hytext].
  destruct (MakeDay_within y (m - 1) d) as (Hy' & Hm' & Hd'); [lia | lia |].
  split; [apply MakeDay_valid; lia |].
  unfold isoOfDay. rewrite Hy', Hm', Hd', Hytext.
  replace (m - 1 + 1) with m by lia.
  by rewrite (pad_text ms m Hmd Hml Hmv), (pad_text ds d Hdd Hdl Hdv).
Qed.

Lemma year_length y :
  1000 <= y <= 9999 → String.length (numberToString (Some y)) = 4%nat.
Proof.
  intros Hy.
  assert (Hall : forallb
            (fun y => Nat.eqb (String.length (numberToString (Some y))) 4)
            (seqZ 1000 9000) = true) by (vm_compute; reflexivity).
  apply Nat.eqb_eq.
  apply (proj1 (forallb_forall _ _) Hall y).
  apply list_elem_of_In, elem_of_seqZ. lia.
Qed.

Lemma pad_length z :
  0 <= z <= 99 →
  String.length (padStart 2 "0" (numberToString (Some z))) = 2%nat.
Proof.
  intros Hz.
  assert (Hall : forallb
            (fun z => Nat.eqb
               (String.length (padStart 2 "0" (numberToString (Some z)))) 2)
            (seqZ 0 100) = true) by (vm_compute; reflexivity).
  apply Nat.eqb_eq.
  apply (proj1 (forallb_forall _ _) Hall z).
  apply list_elem_of_In, elem_of_seqZ. lia.
Qed.

Lemma digitsToNumber_text s z :
  allDigits s = true → s ≠ "" → StringToNumber s = Some z →
  digitsToNumber s = Some z.
Proof. intros Hd Hne <-. symmetry. by apply StringToNumber_digits. Qed.

(** The identifier [toISODate] writes for a day of the years 1000 to 9999
    is well-formed and denotes that day. *)
Lemma isValidISO_isoOfDay n :
  validDay n → isValidISO (isoOfDay n) = true ∧ dayOfISO (isoOfDay n) = n.
Proof.
  intros Hn. pose proof (validDay_year n Hn) as Hy.
  pose proof (MonthFromDay_range n) as Hm.
  pose proof (DateFromDay_range n) as Hd.
  pose proof (DateFromDay_month n) as Hdm.
  destruct (numberToString_digits (YearFromDay n)) as [Hyd Hyne]; [lia |].
  destruct (padStart_digits 2 (MonthFromDay n + 1)) as [Hmd Hmv]; [lia |].
  destruct (padStart_digits 2 (DateFromDay n)) as [Hdd Hdv]; [lia |].
  pose proof (year_length (YearFromDay n) Hy) as Hyl.
  pose proof (pad_length (MonthFromDay n + 1) ltac:(lia)) as Hml.
  pose proof (pad_length (DateFromDay n) ltac:(lia)) as Hdl.
  assert (Hf : isoFields (isoOfDay n)
               = Some (YearFromDay n, MonthFromDay n + 1, DateFromDay n)).
  { unfold isoFields. rewrite isoOfDay_split by lia.
    rewrite Hyl, Hml, Hdl, Hyd, Hmd, Hdd. cbn [Nat.eqb andb].
    rewrite (digitsToNumber_text _ (YearFromDay n) Hyd Hyne)
      by (apply StringToNumber_numberToString; lia).
    rewrite (digitsToNumber_text _ _ Hmd)
      by (done || by intros E; rewrite E in Hml).
    rewrite (digitsToNumber_text _ _ Hdd)
      by (done || by intros E; rewrite E in Hdl).
    done. }
  unfold isValidISO, dayOfISO. rewrite Hf.
  replace (MonthFromDay n + 1 - 1) with (MonthFromDay n) by lia.
  split.
  - repeat (apply andb_true_intro; split); apply Z.leb_le; lia.
  - pose proof (MakeDay_civil n 0) as Hc. by rewrite !Z.add_0_r in Hc.
Qed.

End IdentifierFacts.

(** ** The two zones are sane *)

Lemma bogota_sane : SaneZone bogota.
Proof.
  split; unfold LocalTime, UTC, bogota, msPerDay.
  - intros tl. f_equal. lia.
  - intros _. lia.
  - intros _ _. lia.
Qed.

Lemma london_sane : SaneZone london.
Proof.
  split.
  - intros tl. unfold LocalTime, UTC, london, Day, bstStart, bstEnd, msPerDay.
    repeat match goal with
           | |- context [?a <=? ?b] => destruct (Z.leb_spec a b)
           | |- context [?a <? ?b] => destruct (Z.ltb_spec a b)
           end; cbn [andb] in *; zdiv.
  - intros tl. unfold london, bstStart, bstEnd, msPerDay.
    repeat case_match; lia.
  - intros t1 t2. unfold london, bstStart, bstEnd, msPerDay.
    repeat case_match; lia.
Qed.

(** ** The closure loops *)

Section ClosureFacts.

Lemma fill_fill v : fill (fill v) = fill v.
Proof. by destruct v as [[] |]. Qed.

Lemma fill_not_null v : fill v ≠ None ∧ fill v ≠ Some null.
Proof. by destruct v as [[] |]. Qed.

Lemma stored_withStatus (s : StatusByDate) a k v a' k' :
  stored (withStatus s a k v) a' k'
  = if decide (a' = a ∧ k' = k) then Some v else stored s a' k'.
Proof.
  unfold stored, withStatus.
  destruct (decide (a' = a)) as [-> | Ha].
  - rewrite lookup_insert_eq. cbn [mbind option_bind].
    destruct (decide (k' = k)) as [-> | Hk].
    + rewrite lookup_insert_eq. by rewrite decide_True.
    + rewrite lookup_insert_ne by done.
      rewrite decide_False by (intros [_ ?]; done).
      by destruct (s !! a).
  - rewrite lookup_insert_ne by done.
    by rewrite decide_False by (intros [? _]; done).
Qed.

Lemma closedOver_none s : closedOver (fun _ _ => False) s s.
Proof. split; [done | by left]. Qed.

Lemma closedOver_weaken (P Q : string → string → Prop) s r :
  (∀ a k, P a k ↔ Q a k) → closedOver P s r → closedOver Q s r.
Proof.
  intros HPQ [H1 H2]. split.
  - intros a k Hq. apply H1. by apply HPQ.
  - intros a k. destruct (H2 a k) as [? | [? ?]]; [by left | right].
    split; [by apply HPQ | done].
Qed.

Lemma closedOver_trans (P Q : string → string → Prop) s r r' :
  closedOver P s r → closedOver Q r r' →
  closedOver (fun a k => P a k ∨ Q a k) s r'.
Proof.
  intros [P1 P2] [Q1 Q2]. split.
  - intros a k [Hp | Hq].
    + destruct (Q2 a k) as [-> | [_ ->]]; rewrite (P1 a k Hp);
        [done | apply fill_fill].
    + rewrite (Q1 a k Hq).
      destruct (P2 a k) as [-> | [_ ->]]; [done | apply fill_fill].
  - intros a k.
    destruct (P2 a k) as [Hp | [Hp Hpe]], (Q2 a k) as [Hq | [Hq Hqe]].
    + left. congruence.
    + right. split; [by right | congruence].
    + right. split; [by left | congruence].
    + right. split; [by left |]. rewrite Hqe, Hpe. apply fill_fill.
Qed.

Lemma closeActivity_closedOver dayISO s a :
  closedOver (fun a' k => a' = id a ∧ k = dayISO) s (closeActivity dayISO s a).
Proof.
  unfold closeActivity, getStatus.
  destruct (stored s (id a) dayISO) as [[] |] eqn:Hs; cbn.
  - split; [intros a' k [-> ->]; by rewrite Hs | by left].
  - split; [intros a' k [-> ->]; by rewrite Hs | by left].
  - split.
    + intros a' k [-> ->]. rewrite stored_withStatus, decide_True by done.
      by rewrite Hs.
    + intros a' k. rewrite stored_withStatus. case_decide as Hd; [| by left].
      destruct Hd as [-> ->]. right. by rewrite Hs.
  - split.
    + intros a' k [-> ->]. rewrite stored_withStatus, decide_True by done.
      by rewrite Hs.
    + intros a' k. rewrite stored_withStatus. case_decide as Hd; [| by left].
      destruct Hd as [-> ->]. right. by rewrite Hs.
Qed.

(** One day of the outer loop fills the day's cell of every activity. *)
Lemma closeDay_closedOver dayISO (acts : list Activity) s :
  closedOver (fun a' k => a' ∈ id <$> acts ∧ k = dayISO) s
    (fold_left (closeActivity dayISO) acts s).
Proof.
  revert s. induction acts as [| a acts IH]; intros s; cbn [fold_left].
  - eapply closedOver_weaken; [| apply closedOver_none].
    intros a k. cbn. split; [done |]. intros [H _]. by apply elem_of_nil in H.
  - eapply closedOver_weaken;
      [| exact (closedOver_trans _ _ _ _ _
                  (closeActivity_closedOver dayISO s a)
                  (IH (closeActivity dayISO s a)))].
    intros a' k. cbn. rewrite elem_of_cons. tauto.
Qed.

(** Whatever the dates are, the loop only fills cells. *)
Lemma closeDays_fills tz acts lastClosed today left i s a k :
  let r := closeDays tz acts lastClosed today left i s in
  stored r a k = stored s a k ∨ stored r a k = fill (stored s a k).
Proof.
  revert i s. induction left as [| left IH]; intros i s; cbn [closeDays].
  - by left.
  - destruct (String.eqb _ today); [by left |].
    destruct (closeDay_closedOver (addDaysISO tz lastClosed i) acts s)
      as [_ Hday].
    cbn zeta in IH.
    destruct (IH (i + 1)
                (fold_left (closeActivity (addDaysISO tz lastClosed i)) acts s))
      as [-> | ->];
      destruct (Hday a k) as [-> | [_ ->]]; rewrite ?fill_fill; auto.
Qed.

(** On the days of the YYYY-MM-DD range the loop fills the cells of every
    listed activity for the days from [l + i] up to the eve of [t]. *)
Lemma closeDays_closedOver tz acts l t (left : nat) i s :
  SaneZone tz → validDay l → validDay t →
  1 <= i → l + i <= t → Z.of_nat left = t - l - i + 1 →
  closedOver
    (fun a k => a ∈ id <$> acts ∧ ∃ d, l + i <= d < t ∧ k = isoOfDay d) s
    (closeDays tz acts (isoOfDay l) (isoOfDay t) left i s).
Proof.
  intros Hz Hl Ht. revert i s.
  induction left as [| left IH]; intros i s Hi Hit Hleft; [lia |].
  cbn [closeDays].
  assert (Hv : validDay (l + i)) by (unfold validDay in *; lia).
  rewrite (addDaysISO_isoOfDay tz Hz l i Hl Hv).
  destruct (String.eqb_spec (isoOfDay (l + i)) (isoOfDay t)) as [Heq | Hne].
  - apply isoOfDay_inj in Heq; [| done | done].
    eapply closedOver_weaken; [| apply closedOver_none].
    intros a k. cbn. split; [done |]. intros (_ & d & Hd & _). lia.
  - assert (Hlt : l + i < t) by (destruct (decide (l + i = t)); [congruence | lia]).
    eapply closedOver_weaken;
      [| exact (closedOver_trans _ _ _ _ _
                  (closeDay_closedOver (isoOfDay (l + i)) acts s)
                  (IH (i + 1) _ ltac:(lia) ltac:(lia) ltac:(lia)))].
    intros a k. cbn. split.
    + intros [[Ha ->] | (Ha & d & Hd & ->)]; (split; [done |]).
      * exists (l + i). split; [lia | done].
      * exists d. split; [lia | done].
    + intros (Ha & d & Hd & ->).
      destruct (decide (d = l + i)) as [-> | Hdi]; [by left | right].
      split; [done |]. exists d. split; [lia | done].
Qed.

End ClosureFacts.

(** ** [closeMissingDays] as a whole *)

Section EngineFacts.

Variable tz : Z → bool → Z.

Lemma diffDays_empty today : diffDays tz "" today = None.
Proof. reflexivity. Qed.

Lemma diffDays_same iso n : diffDays tz iso iso = Some n → n = 0.
Proof.
  unfold diffDays. destruct (getTime (parseISO tz iso)) as [a |]; [| done].
  intros [= <-]. unfold roundDiv. zdiv.
Qed.

(** The three ways out of [closeMissingDays] for a cursor that is set. *)
Lemma closeMissingDays_some acts s lastClosed today n :
  diffDays tz lastClosed today = Some n →
  closeMissingDays tz acts s (Some lastClosed) today
  = if n <=? 0 then (s, lastClosed)
    else (closeDays tz acts lastClosed today (Z.to_nat n) 1 s, today).
Proof.
  intros Hn. unfold closeMissingDays.
  destruct lastClosed as [| c r]; [by rewrite diffDays_empty in Hn |].
  by rewrite Hn.
Qed.

Lemma closeMissingDays_nan acts s lastClosed today :
  diffDays tz lastClosed today = None →
  closeMissingDays tz acts s (Some lastClosed) today = (s, today).
Proof.
  intros Hn. unfold closeMissingDays.
  destruct lastClosed as [| c r]; [done |]. by rewrite Hn.
Qed.

(** A second pass over the result of a first one finds nothing to do. *)
Lemma closeMissingDays_again acts s today :
  closeMissingDays tz acts s (Some today) today = (s, today).
Proof.
  destruct (diffDays tz today today) as [n |] eqn:Hn.
  - rewrite (closeMissingDays_some _ _ _ _ n Hn).
    by rewrite (diffDays_same _ _ Hn).
  - by apply closeMissingDays_nan.
Qed.

(** Whatever the inputs, a cell is left as it was or filled. *)
Lemma closeMissingDays_fills acts s lastClosed today a k :
  let r := (closeMissingDays tz acts s lastClosed today).1 in
  stored r a k = stored s a k ∨ stored r a k = fill (stored s a k).
Proof.
  cbn zeta. destruct lastClosed as [lc |]; [| by left].
  destruct (diffDays tz lc today) as [n |] eqn:Hn.
  - rewrite (closeMissingDays_some _ _ _ _ n Hn).
    destruct (n <=? 0); [by left |]. apply closeDays_fills.
  - rewrite closeMissingDays_nan by done. by left.
Qed.

Hypothesis sane : SaneZone tz.

(** Between two days of the YYYY-MM-DD range, the later one being today,
    the cells of the listed activities for the days strictly between are
    filled, nothing else changes, and the cursor moves to today. *)
Lemma closeMissingDays_valid acts s l t :
  validDay l → validDay t → l < t →
  ∃ r, closeMissingDays tz acts s (Some (isoOfDay l)) (isoOfDay t)
       = (r, isoOfDay t)
       ∧ closedOver
           (fun a k => a ∈ id <$> acts ∧ ∃ d, between l t d ∧ k = isoOfDay d)
           s r.
Proof.
  intros Hl Ht Hlt.
  rewrite (closeMissingDays_some _ _ _ _ (t - l))
    by by apply diffDays_isoOfDay.
  destruct (Z.leb_spec (t - l) 0); [lia |].
  eexists. split; [done |].
  eapply closedOver_weaken;
    [| apply (closeDays_closedOver tz acts l t (Z.to_nat (t - l)) 1 s);
       (done || lia)].
  intros a k. unfold between. cbn. split.
  - intros (Ha & d & Hd & ->). split; [done |]. exists d. split; [lia | done].
  - intros (Ha & d & Hd & ->). split; [done |]. exists d. split; [lia | done].
Qed.

Lemma closeMissingDays_back acts s l t :
  validDay l → validDay t → t <= l →
  closeMissingDays tz acts s (Some (isoOfDay l)) (isoOfDay t)
  = (s, isoOfDay l).
Proof.
  intros Hl Ht Hle.
  rewrite (closeMissingDays_some _ _ _ _ (t - l))
    by by apply diffDays_isoOfDay.
  by destruct (Z.leb_spec (t - l) 0); [| lia].
Qed.

End EngineFacts.

(** ** The monthly series *)

Section SeriesFacts.

Variable tz : Z → bool → Z.
Hypothesis sane : SaneZone tz.

(** Day 0 of the next month is the last day of this one. *)
Lemma MakeDay_month_end y mn :
  0 <= mn <= 11 →
  MakeDay y (mn + 1) 0 = MakeDay y mn (monthLength (leapDays y) mn).
Proof.
  intros Hm. pose proof (DayFromYear_succ y) as Hs.
  rewrite DaysInYear_leapDays in Hs.
  assert (Hc : mn = 0 ∨ mn = 1 ∨ mn = 2 ∨ mn = 3 ∨ mn = 4 ∨ mn = 5 ∨ mn = 6
               ∨ mn = 7 ∨ mn = 8 ∨ mn = 9 ∨ mn = 10 ∨ mn = 11) by lia.
  unfold MakeDay.
  destruct_or!; subst mn;
    match goal with
    | |- context [DayFromYear (y + ?a / 12)] =>
        let q := eval vm_compute in (a / 12) in
        change (a / 12) with q
    end;
    rewrite ?Z.add_0_r;
    repeat match goal with
           | |- context [?a mod 12] =>
               let q := eval vm_compute in (a mod 12) in
               change (a mod 12) with q
           | |- context [?a / 12] =>
               let q := eval vm_compute in (a / 12) in
               change (a / 12) with q
           end;
    rewrite ?Z.add_0_r, ?Hs; cbn [daysBeforeMonth monthLength]; lia.
Qed.

Lemma monthLength_range l mn : 0 <= l <= 1 → 28 <= monthLength l mn <= 31.
Proof. intros Hl. unfold monthLength. repeat case_match; lia. Qed.

(** [daysInMonth] is the length of the month in the calendar. *)
Lemma daysInMonth_calendar y mn :
  1000 <= y <= 9999 → 0 <= mn <= 11 →
  daysInMonth tz (Some y) (Some mn) = Some (monthLength (leapDays y) mn).
Proof.
  intros Hy Hm. pose proof (monthLength_range _ mn (leapDays_range y)) as Hlen.
  unfold daysInMonth. cbn [fmap option_fmap option_map].
  replace (Z.succ mn) with (mn + 1) by lia.
  assert (Hv : validDay (MakeDay y (mn + 1) 0)).
  { rewrite MakeDay_month_end by done. apply MakeDay_valid; lia. }
  rewrite (newDate_day tz sane) by (by apply validDay_clip || lia).
  destruct (getters_midnight tz sane (MakeDay y (mn + 1) 0)) as (_ & _ & ->).
  rewrite MakeDay_month_end by done.
  by destruct (MakeDay_within y mn (monthLength (leapDays y) mn)) as (_ & _ & ->);
    [| lia |].
Qed.

(** The value of the series for day [i + 1] of the month. *)
Lemma seriesValue_day y mn s t ids i :
  1000 <= y <= 9999 → 0 <= mn <= 11 →
  0 <= i < monthLength (leapDays y) mn →
  seriesValue tz (Some y) (Some mn) s (midnight tz t) ids i
  = if bool_decide (t < MakeDay y mn (i + 1)) then None
    else Some (countDone s (isoOfDay (MakeDay y mn (i + 1))) ids).
Proof.
  intros Hy Hm Hi. unfold seriesValue.
  assert (Hv : validDay (MakeDay y mn (i + 1))) by (apply MakeDay_valid; lia).
  pose proof (validDay_clip _ Hv) as Hc.
  rewrite (newDate_day tz sane) by (done || lia).
  rewrite (setHours0_midnight tz sane) by done.
  rewrite (dateGt_midnight tz sane), (toISODate_midnight tz sane).
  done.
Qed.

Lemma countDone_from (s : StatusByDate) iso ids c :
  fold_left
    (fun count i =>
       if decide (stored s i iso = Some done) then count + 1 else count)
    ids c
  = c + Z.of_nat (length (filter (fun a => stored s a iso = Some done) ids)).
Proof.
  revert c. induction ids as [| a ids IH]; intros c; cbn [fold_left].
  - cbn. lia.
  - rewrite IH, filter_cons. case_decide; cbn [length]; lia.
Qed.

(** Over the keys of the snapshot the loop counts the identifiers that hold
    [done] for the day. *)
Lemma countDone_keys (s : StatusByDate) iso :
  countDone s iso (map_to_list s).*1 = Z.of_nat (size (doneOn s iso)).
Proof.
  unfold countDone. rewrite countDone_from, Z.add_0_l. f_equal.
  unfold doneOn.
  rewrite <- (size_list_to_set (C := gset string)).
  - apply set_size_proper. intros a.
    rewrite elem_of_list_to_set, list_elem_of_filter, elem_of_filter.
    rewrite dom_alt, elem_of_list_to_set. done.
  - apply NoDup_filter, NoDup_fst_map_to_list.
Qed.

Lemma arrayFrom_lookup {A : Type} (f : Z → A) n i :
  0 <= i < n → arrayFrom (Some n) f !! Z.to_nat i = Some (f i).
Proof.
  intros Hi. unfold arrayFrom. change (default 0 (Some n)) with n.
  rewrite list_lookup_fmap, lookup_seqZ_lt by lia.
  cbn [fmap option_fmap option_map]. do 2 f_equal. lia.
Qed.

Lemma arrayFrom_length {A : Type} (f : Z → A) n :
  length (arrayFrom n f) = Z.to_nat (default 0 n).
Proof. unfold arrayFrom. by rewrite length_fmap, length_seqZ. Qed.

(** The series, entry by entry. *)
Lemma buildMonthlySeries_data y mn s t i :
  validDay t → 1000 <= y <= 9999 → 0 <= mn <= 11 →
  0 <= i < monthLength (leapDays y) mn →
  (buildMonthlySeries tz (Some y) (Some mn) s (isoOfDay t)).2 !! Z.to_nat i
  = Some (if bool_decide (t < MakeDay y mn (i + 1)) then None
          else Some (Z.of_nat (size (doneOn s (isoOfDay (MakeDay y mn (i + 1))))))).
Proof.
  intros Ht Hy Hm Hi. unfold buildMonthlySeries. cbn [snd].
  rewrite daysInMonth_calendar by done.
  rewrite arrayFrom_lookup by done.
  rewrite (parseISO_isoOfDay tz sane) by done.
  rewrite seriesValue_day by done.
  by rewrite countDone_keys.
Qed.

(** Over the identifiers of a list of activities the loop counts the
    activities of the list that hold [done] for the day. *)
Lemma countDone_activities (s : StatusByDate) iso (acts : list Activity) :
  countDone s iso (id <$> acts) = Z.of_nat (length (listedDone s iso acts)).
Proof.
  unfold countDone. rewrite countDone_from, Z.add_0_l. f_equal.
  unfold listedDone. induction acts as [| a acts IH]; [done |].
  rewrite fmap_cons, !filter_cons.
  case_decide; cbn [length]; by rewrite IH.
Qed.

(** The series of the variant under [app/(tabs)], entry by entry. *)
Lemma tabsSeries_data y mn (acts : list Activity) s t i :
  validDay t → 1000 <= y <= 9999 → 0 <= mn <= 11 →
  0 <= i < monthLength (leapDays y) mn →
  (Tabs.buildMonthlySeries tz (Some y) (Some mn) acts s (isoOfDay t)).2
    !! Z.to_nat i
  = Some (if bool_decide (t < MakeDay y mn (i + 1)) then None
          else Some (Z.of_nat
                       (length
                          (listedDone s (isoOfDay (MakeDay y mn (i + 1)))
                             acts)))).
Proof.
  intros Ht Hy Hm Hi. unfold Tabs.buildMonthlySeries. cbn [snd].
  rewrite daysInMonth_calendar by done.
  rewrite arrayFrom_lookup by done.
  rewrite (parseISO_isoOfDay tz sane) by done.
  rewrite seriesValue_day by done.
  by rewrite countDone_activities.
Qed.

End SeriesFacts.

(** * The claims *)

(** A well-formed identifier and its day number. *)
Lemma isValidISO_day s :
  isValidISO s = true → ∃ n, validDay n ∧ s = isoOfDay n ∧ dayOfISO s = n.
Proof.
  intros [Hv He]%isValidISO_sound. exists (dayOfISO s). by rewrite He.
Qed.

Lemma dayOfISO_isoOfDay n : validDay n → dayOfISO (isoOfDay n) = n.
Proof. by intros [_ H]%isValidISO_isoOfDay. Qed.

Lemma validDay_between l t d : validDay l → validDay t → l < d < t → validDay d.
Proof. unfold validDay. lia. Qed.

(** ** C1 *)

(** C1. When at least one day has passed since the cursor, every listed
    activity has, for every day strictly between the cursor and today, an
    entry after the closure: [done] if it was [done] before, [missed]
    otherwise, never a missing key. A [missed] entry that was not there
    before is for a day strictly between the two, and no cell of today or
    of a later day changes. *)
Theorem backfill_complete tz acts s lastClosed today n :
  SaneZone tz → isValidISO lastClosed = true → isValidISO today = true →
  diffDays tz lastClosed today = Some n → 0 < n →
  let r := closeMissingDays tz acts s (Some lastClosed) today in
  (∀ a day, a ∈ acts → isValidISO day = true →
     dayOfISO lastClosed < dayOfISO day < dayOfISO today →
     (stored s (id a) day = Some done ∧ stored r.1 (id a) day = Some done)
     ∨ (stored s (id a) day ≠ Some done
        ∧ stored r.1 (id a) day = Some missed))
  ∧ (∀ a k, stored r.1 a k = Some missed → stored s a k ≠ Some missed →
       isValidISO k = true
       ∧ dayOfISO lastClosed < dayOfISO k < dayOfISO today)
  ∧ (∀ a day, isValidISO day = true → dayOfISO today <= dayOfISO day →
       stored r.1 a day = stored s a day).
Proof.
  intros Hz (l & Hl & -> & Hdl)%isValidISO_day (t & Ht & -> & Hdt)%isValidISO_day
    Hn Hpos.
  rewrite Hdl, Hdt.
  rewrite (diffDays_isoOfDay tz Hz l t Hl Ht) in Hn.
  assert (Hlt : l < t) by (injection Hn; lia).
  destruct (closeMissingDays_valid tz Hz acts s l t Hl Ht Hlt)
    as (r & -> & Hfill & Hkeep).
  cbn [fst]. split; [| split].
  - intros a day Ha (d & Hd & -> & Hdd)%isValidISO_day Hbetween.
    rewrite Hdd in Hbetween.
    rewrite (Hfill (id a) (isoOfDay d)).
    2: { split; [by apply list_elem_of_fmap_2 | by exists d]. }
    destruct (stored s (id a) (isoOfDay d)) as [[] |]; cbn;
      [by left | by right | by right | by right].
  - intros a k Hm Hs. destruct (Hkeep a k) as [He | [(_ & d & Hd & ->) _]].
    + congruence.
    + assert (Hv : validDay d) by by apply (validDay_between l t).
      destruct (isValidISO_isoOfDay d Hv) as [-> ->]. done.
  - intros a day (d & Hd & -> & Hdd)%isValidISO_day Htd. rewrite Hdd in Htd.
    destruct (Hkeep a (isoOfDay d)) as [He | [(_ & d' & Hd' & He) _]].
    + done.
    + apply isoOfDay_inj in He; [unfold between in Hd'; lia | done |].
      by apply (validDay_between l t).
Qed.

Lemma backfill_complete_witness :
  SaneZone bogota ∧ isValidISO "2024-01-01" = true
  ∧ isValidISO "2024-01-04" = true
  ∧ diffDays bogota "2024-01-01" "2024-01-04" = Some 3 ∧ 0 < 3
  ∧ ((∀ a day, a ∈ [actX] → isValidISO day = true →
        dayOfISO "2024-01-01" < dayOfISO day < dayOfISO "2024-01-04" →
        (stored doneJan2 (id a) day = Some done
         ∧ stored (closeMissingDays bogota [actX] doneJan2
                     (Some "2024-01-01") "2024-01-04").1 (id a) day
           = Some done)
        ∨ (stored doneJan2 (id a) day ≠ Some done
           ∧ stored (closeMissingDays bogota [actX] doneJan2
                       (Some "2024-01-01") "2024-01-04").1 (id a) day
             = Some missed))
     ∧ (∀ a k,
          stored (closeMissingDays bogota [actX] doneJan2
                    (Some "2024-01-01") "2024-01-04").1 a k = Some missed →
          stored doneJan2 a k ≠ Some missed →
          isValidISO k = true
          ∧ dayOfISO "2024-01-01" < dayOfISO k < dayOfISO "2024-01-04")
     ∧ (∀ a day, isValidISO day = true →
          dayOfISO "2024-01-04" <= dayOfISO day →
          stored (closeMissingDays bogota [actX] doneJan2
                    (Some "2024-01-01") "2024-01-04").1 a day
          = stored doneJan2 a day)).
Proof.
  assert (H1 : isValidISO "2024-01-01" = true) by (vm_compute; reflexivity).
  assert (H4 : isValidISO "2024-01-04" = true) by (vm_compute; reflexivity).
  assert (Hd : diffDays bogota "2024-01-01" "2024-01-04" = Some 3)
    by (vm_compute; reflexivity).
  assert (Hp : 0 < 3) by lia.
  split; [exact bogota_sane |]. split; [exact H1 |]. split; [exact H4 |].
  split; [exact Hd |]. split; [exact Hp |].
  exact (backfill_complete bogota [actX] doneJan2 "2024-01-01" "2024-01-04" 3
           bogota_sane H1 H4 Hd Hp).
Defined.

(** Scenarios A and B of the specification, run. *)
Example scenario_A :
  closeMissingDays bogota [actX] ∅ (Some "2024-01-01") "2024-01-04"
  = ({[ "X" := {[ "2024-01-02" := missed; "2024-01-03" := missed ]} ]},
     "2024-01-04").
Proof. vm_compute. reflexivity. Qed.

Example scenario_B :
  closeMissingDays bogota [actX] doneJan2 (Some "2024-01-01") "2024-01-04"
  = ({[ "X" := {[ "2024-01-02" := done; "2024-01-03" := missed ]} ]},
     "2024-01-04").
Proof. vm_compute. reflexivity. Qed.

(** ** C2 *)

(** C2. Closing again with the snapshot and the cursor a first closure
    returned, the same activities and the same today, returns them
    unchanged. *)
Theorem closeMissingDays_idempotent tz acts s lastClosed today :
  let r := closeMissingDays tz acts s lastClosed today in
  closeMissingDays tz acts r.1 (Some r.2) today = r.
Proof.
  cbn zeta. destruct lastClosed as [lc |].
  - destruct (diffDays tz lc today) as [n |] eqn:Hn.
    + rewrite (closeMissingDays_some tz acts s lc today n Hn).
      destruct (Z.leb_spec n 0) as [Hle | Hgt]; cbn [fst snd].
      * rewrite (closeMissingDays_some tz acts s lc today n Hn).
        by destruct (Z.leb_spec n 0); [| lia].
      * apply closeMissingDays_again.
    + rewrite (closeMissingDays_nan tz acts s lc today Hn). cbn [fst snd].
      apply closeMissingDays_again.
  - cbn [closeMissingDays fst snd]. apply closeMissingDays_again.
Qed.

(** ** C3 *)

(** C3, as stated, fails: a key of a listed activity that holds an explicit
    [null] for a day between the cursor and today is present before the
    closure and holds [missed] after it. *)
Lemma null_key_overwritten :
  stored nullJan2 "X" "2024-01-02" = Some null
  ∧ stored (closeMissingDays bogota [actX] nullJan2
              (Some "2024-01-01") "2024-01-04").1 "X" "2024-01-02"
    = Some missed.
Proof. vm_compute. split; reflexivity. Qed.

(** C3, amended. The closure never changes a key that holds [done] or
    [missed], whatever the day; a key that holds an explicit [null] stays
    present and holds [null] or [missed] afterwards. *)
Theorem marks_preserved tz acts s lastClosed today a k v :
  stored s a k = Some v →
  let r := closeMissingDays tz acts s lastClosed today in
  (v ≠ null → stored r.1 a k = Some v)
  ∧ (v = null → stored r.1 a k = Some null ∨ stored r.1 a k = Some missed).
Proof.
  intros Hv. cbn zeta.
  destruct (closeMissingDays_fills tz acts s lastClosed today a k) as [-> | ->];
    rewrite Hv; destruct v; cbn; split; intros; auto; done.
Qed.

Lemma marks_preserved_witness :
  stored doneJan2 "X" "2024-01-02" = Some done
  ∧ (done ≠ null →
     stored (closeMissingDays bogota [actX] doneJan2
               (Some "2024-01-01") "2024-01-04").1 "X" "2024-01-02"
     = Some done)
  ∧ (done = null →
     stored (closeMissingDays bogota [actX] doneJan2
               (Some "2024-01-01") "2024-01-04").1 "X" "2024-01-02"
     = Some null
     ∨ stored (closeMissingDays bogota [actX] doneJan2
                 (Some "2024-01-01") "2024-01-04").1 "X" "2024-01-02"
       = Some missed).
Proof.
  assert (H : stored doneJan2 "X" "2024-01-02" = Some done)
    by (vm_compute; reflexivity).
  split; [exact H |].
  exact (marks_preserved bogota [actX] doneJan2 (Some "2024-01-01"%string)
           "2024-01-04" "X" "2024-01-02" done H).
Defined.

(** ** C4 *)

(** C4, as stated, fails in its last sentence: with the clock set back to
    4 January and the cursor on 5 January, one day later, the closure
    returns the cursor of 5 January, which is after today. *)
Lemma cursor_after_today :
  isValidISO "2024-01-05" = true ∧ isValidISO "2024-01-04" = true
  ∧ diffDays bogota "2024-01-05" "2024-01-04" = Some (-1)
  ∧ closeMissingDays bogota [actX] ∅ (Some "2024-01-05") "2024-01-04"
    = (∅, "2024-01-05")
  ∧ dayOfISO "2024-01-04" + 1 = dayOfISO "2024-01-05".
Proof. vm_compute. repeat split; reflexivity. Qed.

(** C4, amended. Without a cursor the snapshot is returned unchanged with
    today as the cursor. With a cursor, [diffDays] from it to today is the
    number of days from the one to the other; if it is at most 0 the
    snapshot and the cursor come back unchanged; if it is positive the
    cursor returned is today. The cursor returned is the later of the
    cursor and today: it is on or before today exactly when the cursor
    was. *)
Theorem cursor_cases tz acts s lastClosed today :
  SaneZone tz → isValidISO lastClosed = true → isValidISO today = true →
  let r := closeMissingDays tz acts s (Some lastClosed) today in
  let days := dayOfISO today - dayOfISO lastClosed in
  (∀ today', closeMissingDays tz acts s None today' = (s, today'))
  ∧ diffDays tz lastClosed today = Some days
  ∧ (days <= 0 → r = (s, lastClosed))
  ∧ (0 < days → r.2 = today)
  ∧ dayOfISO r.2 = Z.max (dayOfISO lastClosed) (dayOfISO today)
  ∧ (dayOfISO r.2 <= dayOfISO today ↔ dayOfISO lastClosed <= dayOfISO today).
Proof.
  intros Hz (l & Hl & -> & Hdl)%isValidISO_day (t & Ht & -> & Hdt)%isValidISO_day.
  cbn zeta. rewrite Hdl, Hdt.
  split; [done |]. split; [by apply diffDays_isoOfDay |].
  destruct (Z.le_gt_cases t l) as [Hle | Hgt].
  - rewrite (closeMissingDays_back tz Hz acts s l t Hl Ht Hle).
    cbn [snd]. rewrite Hdl.
    split; [done |]. split; [lia |]. split; lia.
  - destruct (closeMissingDays_valid tz Hz acts s l t Hl Ht ltac:(lia))
      as (r & -> & _).
    cbn [snd]. rewrite Hdt.
    split; [lia |]. split; [done |]. split; lia.
Qed.

Lemma cursor_cases_witness :
  SaneZone bogota ∧ isValidISO "2024-01-05" = true
  ∧ isValidISO "2024-01-04" = true
  ∧ (∀ today', closeMissingDays bogota [actX] doneJan2 None today'
               = (doneJan2, today'))
  ∧ diffDays bogota "2024-01-05" "2024-01-04"
    = Some (dayOfISO "2024-01-04" - dayOfISO "2024-01-05")
  ∧ (dayOfISO "2024-01-04" - dayOfISO "2024-01-05" <= 0 →
     closeMissingDays bogota [actX] doneJan2 (Some "2024-01-05") "2024-01-04"
     = (doneJan2, "2024-01-05"))
  ∧ (0 < dayOfISO "2024-01-04" - dayOfISO "2024-01-05" →
     (closeMissingDays bogota [actX] doneJan2 (Some "2024-01-05")
        "2024-01-04").2 = "2024-01-04")
  ∧ dayOfISO (closeMissingDays bogota [actX] doneJan2 (Some "2024-01-05")
                "2024-01-04").2
    = Z.max (dayOfISO "2024-01-05") (dayOfISO "2024-01-04")
  ∧ (dayOfISO (closeMissingDays bogota [actX] doneJan2 (Some "2024-01-05")
                 "2024-01-04").2 <= dayOfISO "2024-01-04"
     ↔ dayOfISO "2024-01-05" <= dayOfISO "2024-01-04").
Proof.
  assert (H5 : isValidISO "2024-01-05" = true) by (vm_compute; reflexivity).
  assert (H4 : isValidISO "2024-01-04" = true) by (vm_compute; reflexivity).
  split; [exact bogota_sane |]. split; [exact H5 |]. split; [exact H4 |].
  exact (cursor_cases bogota [actX] doneJan2 "2024-01-05" "2024-01-04"
           bogota_sane H5 H4).
Defined.

(** Scenario C of the specification, run. *)
Example scenario_C :
  closeMissingDays bogota [actX] doneJan2 None "2024-03-15"
  = (doneJan2, "2024-03-15").
Proof. reflexivity. Qed.

(** ** C5 *)

(** C5. In a zone whose offsets differ by less than half a day, as they do
    across any daylight-saving change, [diffDays] between two well-formed
    day identifiers is the signed number of calendar days from the first to
    the second, positive exactly when the second is later. *)
Theorem diffDays_exact tz a b :
  SaneZone tz → isValidISO a = true → isValidISO b = true →
  ∃ n, diffDays tz a b = Some n
       ∧ n = dayOfISO b - dayOfISO a
       ∧ (0 < n ↔ dayOfISO a < dayOfISO b).
Proof.
  intros Hz (l & Hl & -> & Hdl)%isValidISO_day (t & Ht & -> & Hdt)%isValidISO_day.
  rewrite Hdl, Hdt. exists (t - l).
  split; [by apply diffDays_isoOfDay |]. split; [done | lia].
Qed.

(** London, from 30 March to 1 April 2024: the night of the 31st is an hour
    short, the two midnights are 47 hours apart, and the count is 2. *)
Lemma diffDays_exact_witness :
  SaneZone london ∧ isValidISO "2024-03-30" = true
  ∧ isValidISO "2024-04-01" = true
  ∧ ∃ n, diffDays london "2024-03-30" "2024-04-01" = Some n
         ∧ n = dayOfISO "2024-04-01" - dayOfISO "2024-03-30"
         ∧ (0 < n ↔ dayOfISO "2024-03-30" < dayOfISO "2024-04-01").
Proof.
  assert (H1 : isValidISO "2024-03-30" = true) by (vm_compute; reflexivity).
  assert (H2 : isValidISO "2024-04-01" = true) by (vm_compute; reflexivity).
  split; [exact london_sane |]. split; [exact H1 |]. split; [exact H2 |].
  exact (diffDays_exact london "2024-03-30" "2024-04-01" london_sane H1 H2).
Defined.

(** The two midnights of that witness are 47 hours apart, so cutting the
    quotient instead of rounding it would count one day; the same holds the
    other way round in October, where they are 49 hours apart. *)
Example london_spring :
  parseISO london "2024-03-30" = Some 1711756800000
  ∧ parseISO london "2024-04-01" = Some 1711926000000
  ∧ (1711926000000 - 1711756800000) / msPerDay = 1
  ∧ diffDays london "2024-03-30" "2024-04-01" = Some 2
  ∧ diffDays london "2024-10-26" "2024-10-28" = Some 2
  ∧ diffDays london "2024-10-28" "2024-10-26" = Some (-2).
Proof. vm_compute. repeat split; reflexivity. Qed.

(** ** C6 *)

(** C6, as stated, fails for the series of [app/(tabs)/index.tsx], which
    the claim names too: with [X] done on 5 March in the snapshot and no
    activity left in the list, that series counts nothing for the 5th,
    while the series of the main screen counts one. *)
Lemma tabs_skips_unlisted :
  stored doneMar5 "X" "2024-03-05" = Some done
  ∧ (Tabs.buildMonthlySeries london (Some 2024) (Some 2) [] doneMar5
       "2024-03-15").2 !! 4%nat = Some (Some 0)
  ∧ (buildMonthlySeries london (Some 2024) (Some 2) doneMar5
       "2024-03-15").2 !! 4%nat = Some (Some 1).
Proof. vm_compute. repeat split; reflexivity. Qed.

(** C6, amended. For a day of the month on or before today, the value of
    the series of the main screen is the number of identifiers of the
    snapshot that hold [done] for that day, whether or not an activity of
    the list owns them; and deleting an activity, which leaves the snapshot
    as it is, leaves that series as it is. The value of the series under
    [app/(tabs)] is the number of activities of the list given to it that
    hold [done] for that day: an identifier of the snapshot that no listed
    activity has is not counted there. *)
Theorem series_counts_snapshot tz y mn s today i :
  SaneZone tz → isValidISO today = true →
  1000 <= y <= 9999 → 0 <= mn <= 11 →
  0 <= i < monthLength (leapDays y) mn →
  MakeDay y mn (i + 1) <= dayOfISO today →
  (buildMonthlySeries tz (Some y) (Some mn) s today).2 !! Z.to_nat i
  = Some (Some (Z.of_nat (size (doneOn s (isoOfDay (MakeDay y mn (i + 1)))))))
  ∧ (∀ st confirmed a, statusByDate st = s →
       buildMonthlySeries tz (Some y) (Some mn)
         (statusByDate (deleteActivity confirmed a st)) today
       = buildMonthlySeries tz (Some y) (Some mn) s today)
  ∧ (∀ acts : list Activity,
       (Tabs.buildMonthlySeries tz (Some y) (Some mn) acts s today).2
         !! Z.to_nat i
       = Some (Some (Z.of_nat
                       (length
                          (listedDone s (isoOfDay (MakeDay y mn (i + 1)))
                             acts))))).
Proof.
  intros Hz (t & Ht & -> & Hdt)%isValidISO_day Hy Hm Hi Hle.
  rewrite Hdt in Hle. split; [| split].
  - rewrite (buildMonthlySeries_data tz Hz) by done.
    by rewrite bool_decide_eq_false_2 by lia.
  - intros st confirmed a <-. by destruct confirmed.
  - intros acts. rewrite (tabsSeries_data tz Hz) by done.
    by rewrite bool_decide_eq_false_2 by lia.
Qed.

(** March 2024 in London, today the 15th, [X] done on the 5th. *)
Lemma series_counts_snapshot_witness :
  SaneZone london ∧ isValidISO "2024-03-15" = true
  ∧ 1000 <= 2024 <= 9999 ∧ 0 <= 2 <= 11
  ∧ 0 <= 4 < monthLength (leapDays 2024) 2
  ∧ MakeDay 2024 2 (4 + 1) <= dayOfISO "2024-03-15"
  ∧ isoOfDay (MakeDay 2024 2 (4 + 1)) = "2024-03-05"
  ∧ (buildMonthlySeries london (Some 2024) (Some 2) doneMar5
       "2024-03-15").2 !! Z.to_nat 4
    = Some (Some (Z.of_nat
                    (size (doneOn doneMar5 (isoOfDay (MakeDay 2024 2 (4 + 1)))))))
  ∧ (∀ st confirmed a, statusByDate st = doneMar5 →
       buildMonthlySeries london (Some 2024) (Some 2)
         (statusByDate (deleteActivity confirmed a st)) "2024-03-15"
       = buildMonthlySeries london (Some 2024) (Some 2) doneMar5 "2024-03-15")
  ∧ (∀ acts : list Activity,
       (Tabs.buildMonthlySeries london (Some 2024) (Some 2) acts doneMar5
          "2024-03-15").2 !! Z.to_nat 4
       = Some (Some (Z.of_nat
                       (length
                          (listedDone doneMar5
                             (isoOfDay (MakeDay 2024 2 (4 + 1))) acts))))).
Proof.
  assert (Ht : isValidISO "2024-03-15" = true) by (vm_compute; reflexivity).
  assert (Hy : 1000 <= 2024 <= 9999) by lia.
  assert (Hm : 0 <= 2 <= 11) by lia.
  assert (Hi : 0 <= 4 < monthLength (leapDays 2024) 2)
    by (vm_compute; split; congruence).
  assert (Hle : MakeDay 2024 2 (4 + 1) <= dayOfISO "2024-03-15")
    by (vm_compute; congruence).
  split; [exact london_sane |]. split; [exact Ht |]. split; [exact Hy |].
  split; [exact Hm |]. split; [exact Hi |]. split; [exact Hle |].
  split; [vm_compute; reflexivity |].
  exact (series_counts_snapshot london 2024 2 doneMar5 "2024-03-15" 4
           london_sane Ht Hy Hm Hi Hle).
Defined.

(** Scenario D of the specification, run: [X] is deleted, and the series of
    March still counts its [done] of the 5th. *)
Example scenario_D :
  activities (deleteActivity true "X" boardMar15) = []
  ∧ (buildMonthlySeries london (Some 2024) (Some 2)
       (statusByDate (deleteActivity true "X" boardMar15)) "2024-03-15").2
    = [Some 0; Some 0; Some 0; Some 0; Some 1; Some 0; Some 0; Some 0; Some 0;
       Some 0; Some 0; Some 0; Some 0; Some 0; Some 0; None; None; None; None;
       None; None; None; None; None; None; None; None; None; None; None;
       None].
Proof. vm_compute. split; reflexivity. Qed.

(** The variant under [app/(tabs)] with [X] in its list counts the [done]
    of the 5th as the main screen does. That file has no way to delete an
    activity. *)
Example tabs_counts_listed :
  (Tabs.buildMonthlySeries london (Some 2024) (Some 2) [actX] doneMar5
     "2024-03-15").2 !! 4%nat = Some (Some 1).
Proof. vm_compute. reflexivity. Qed.

(** ** C7 *)

(** C7. The labels and the values of the series are as many as the month has
    days, which [daysInMonth] gives as the calendar does; a day of the month
    after today has the value [null], a day on or before today has a count
    that is not negative. *)
Theorem series_shape tz y mn s today :
  SaneZone tz → isValidISO today = true →
  1000 <= y <= 9999 → 0 <= mn <= 11 →
  let r := buildMonthlySeries tz (Some y) (Some mn) s today in
  ∃ n, daysInMonth tz (Some y) (Some mn) = Some n
       ∧ n = monthLength (leapDays y) mn ∧ 28 <= n <= 31
       ∧ length r.1 = Z.to_nat n ∧ length r.2 = Z.to_nat n
       ∧ ∀ i, 0 <= i < n →
           r.1 !! Z.to_nat i = Some (numberToString (Some (i + 1)))
           ∧ (dayOfISO today < MakeDay y mn (i + 1) →
              r.2 !! Z.to_nat i = Some None)
           ∧ (MakeDay y mn (i + 1) <= dayOfISO today →
              ∃ c, 0 <= c ∧ r.2 !! Z.to_nat i = Some (Some c)).
Proof.
  intros Hz (t & Ht & -> & Hdt)%isValidISO_day Hy Hm. cbn zeta. rewrite Hdt.
  exists (monthLength (leapDays y) mn).
  pose proof (daysInMonth_calendar tz Hz y mn Hy Hm) as Hdim.
  split; [done |]. split; [done |].
  split; [apply monthLength_range, leapDays_range |].
  split; [| split].
  - unfold buildMonthlySeries. cbn [fst]. by rewrite arrayFrom_length, Hdim.
  - unfold buildMonthlySeries. cbn [snd]. by rewrite arrayFrom_length, Hdim.
  - intros i Hi. split; [| split].
    + unfold buildMonthlySeries. cbn [fst]. rewrite Hdim.
      by rewrite arrayFrom_lookup.
    + intros Hlt. rewrite (buildMonthlySeries_data tz Hz) by done.
      by rewrite bool_decide_eq_true_2.
    + intros Hle. rewrite (buildMonthlySeries_data tz Hz) by done.
      rewrite bool_decide_eq_false_2 by lia.
      eexists. split; [| done]. lia.
Qed.

(** February 2024 in London, today the 10th: 29 entries. *)
Lemma series_shape_witness :
  SaneZone london ∧ isValidISO "2024-02-10" = true
  ∧ 1000 <= 2024 <= 9999 ∧ 0 <= 1 <= 11
  ∧ ∃ n, daysInMonth london (Some 2024) (Some 1) = Some n
         ∧ n = monthLength (leapDays 2024) 1 ∧ 28 <= n <= 31
         ∧ length (buildMonthlySeries london (Some 2024) (Some 1) doneMar5
                     "2024-02-10").1 = Z.to_nat n
         ∧ length (buildMonthlySeries london (Some 2024) (Some 1) doneMar5
                     "2024-02-10").2 = Z.to_nat n
         ∧ ∀ i, 0 <= i < n →
             (buildMonthlySeries london (Some 2024) (Some 1) doneMar5
                "2024-02-10").1 !! Z.to_nat i
             = Some (numberToString (Some (i + 1)))
             ∧ (dayOfISO "2024-02-10" < MakeDay 2024 1 (i + 1) →
                (buildMonthlySeries london (Some 2024) (Some 1) doneMar5
                   "2024-02-10").2 !! Z.to_nat i = Some None)
             ∧ (MakeDay 2024 1 (i + 1) <= dayOfISO "2024-02-10" →
                ∃ c, 0 <= c
                     ∧ (buildMonthlySeries london (Some 2024) (Some 1) doneMar5
                          "2024-02-10").2 !! Z.to_nat i = Some (Some c)).
Proof.
  assert (Ht : isValidISO "2024-02-10" = true) by (vm_compute; reflexivity).
  assert (Hy : 1000 <= 2024 <= 9999) by lia.
  assert (Hm : 0 <= 1 <= 11) by lia.
  split; [exact london_sane |]. split; [exact Ht |]. split; [exact Hy |].
  split; [exact Hm |].
  exact (series_shape london 2024 1 doneMar5 "2024-02-10" london_sane Ht Hy Hm).
Defined.

Example february_2024 :
  buildMonthlySeries london (Some 2024) (Some 1)
    {[ "X" := {[ "2024-02-02" := done ]} ]} "2024-02-03"
  = (["1"; "2"; "3"; "4"; "5"; "6"; "7"; "8"; "9"; "10"; "11"; "12"; "13";
      "14"; "15"; "16"; "17"; "18"; "19"; "20"; "21"; "22"; "23"; "24"; "25";
      "26"; "27"; "28"; "29"],
     [Some 0; Some 1; Some 0; None; None; None; None; None; None; None; None;
      None; None; None; None; None; None; None; None; None; None; None; None;
      None; None; None; None; None; None]).
Proof. vm_compute. reflexivity. Qed.

(** ** C8 *)

Lemma onPressCell_today a st :
  statusByDate (onPressCell a (todayISO st) st)
  = withStatus (statusByDate st) a (todayISO st)
      (cycleTodayStatus (getStatus (statusByDate st) a (todayISO st))).
Proof. unfold onPressCell. by rewrite decide_True. Qed.

(** C8, as stated, fails: pressing today's cell of [X] while it is [done]
    keeps the key and stores an explicit [null] under it. *)
Lemma toggle_off_stores_null :
  stored (statusByDate boardJan4) "X" "2024-01-04" = Some done
  ∧ stored (statusByDate (onPressCell "X" "2024-01-04" boardJan4))
      "X" "2024-01-04" = Some null
  ∧ statusByDate (onPressCell "X" "2024-01-04" boardJan4)
    = {[ "X" := {[ "2024-01-04" := null ]} ]}.
Proof. vm_compute. repeat split; reflexivity. Qed.

(** C8, amended. From a snapshot whose keys all hold [done] or [missed]:
    the closure returns such a snapshot; adding and deleting an activity
    leave the snapshot as it is; pressing a cell of another day changes
    nothing; pressing today's cell when it is not [done] stores [done] and
    keeps the property; pressing today's cell when it is [done] keeps the
    key and stores an explicit [null] under it, which [getStatus] reads as
    no status. *)
Theorem snapshot_values tz st :
  NoNull (statusByDate st) →
  (∀ newToday, NoNull (statusByDate (onForeground tz newToday st)))
  ∧ (∀ newName uid,
       statusByDate (addActivity newName uid st) = statusByDate st)
  ∧ (∀ confirmed a,
       statusByDate (deleteActivity confirmed a st) = statusByDate st)
  ∧ (∀ a iso, iso ≠ todayISO st → onPressCell a iso st = st)
  ∧ (∀ a, getStatus (statusByDate st) a (todayISO st) ≠ done →
       stored (statusByDate (onPressCell a (todayISO st) st)) a (todayISO st)
       = Some done
       ∧ NoNull (statusByDate (onPressCell a (todayISO st) st)))
  ∧ (∀ a, getStatus (statusByDate st) a (todayISO st) = done →
       stored (statusByDate (onPressCell a (todayISO st) st)) a (todayISO st)
       = Some null
       ∧ getStatus (statusByDate (onPressCell a (todayISO st) st)) a
           (todayISO st) = null).
Proof.
  intros Hnn.
  split; [| split; [| split; [| split; [| split]]]].
  - intros newToday a k v. unfold onForeground. cbn [statusByDate].
    destruct (closeMissingDays_fills tz (activities st) (statusByDate st)
                (lastClosedISO st) newToday a k) as [-> | ->].
    + apply Hnn.
    + intros Hv ->. by destruct (fill_not_null (stored (statusByDate st) a k)).
  - intros newName uid. unfold addActivity. by destruct (trim newName).
  - intros confirmed a. by destruct confirmed.
  - intros a iso Hne. unfold onPressCell. by rewrite decide_False.
  - intros a Hs. split.
    + rewrite onPressCell_today, stored_withStatus, decide_True by done.
      by destruct (getStatus (statusByDate st) a (todayISO st)).
    + intros a' k v. rewrite onPressCell_today, stored_withStatus.
      case_decide as Hd; [| apply Hnn].
      destruct (getStatus (statusByDate st) a (todayISO st)); [done | |];
        by intros [= <-].
  - intros a Hs. unfold getStatus.
    rewrite onPressCell_today, stored_withStatus, decide_True by done.
    fold (getStatus (statusByDate st) a (todayISO st)). by rewrite Hs.
Qed.

Lemma snapshot_values_witness :
  NoNull (statusByDate boardJan4)
  ∧ (∀ newToday, NoNull (statusByDate (onForeground bogota newToday boardJan4)))
  ∧ (∀ newName uid,
       statusByDate (addActivity newName uid boardJan4)
       = statusByDate boardJan4)
  ∧ (∀ confirmed a,
       statusByDate (deleteActivity confirmed a boardJan4)
       = statusByDate boardJan4)
  ∧ (∀ a iso, iso ≠ todayISO boardJan4 → onPressCell a iso boardJan4 = boardJan4)
  ∧ (∀ a, getStatus (statusByDate boardJan4) a (todayISO boardJan4) ≠ done →
       stored (statusByDate (onPressCell a (todayISO boardJan4) boardJan4)) a
         (todayISO boardJan4) = Some done
       ∧ NoNull (statusByDate (onPressCell a (todayISO boardJan4) boardJan4)))
  ∧ (∀ a, getStatus (statusByDate boardJan4) a (todayISO boardJan4) = done →
       stored (statusByDate (onPressCell a (todayISO boardJan4) boardJan4)) a
         (todayISO boardJan4) = Some null
       ∧ getStatus (statusByDate (onPressCell a (todayISO boardJan4) boardJan4))
           a (todayISO boardJan4) = null).
Proof.
  assert (Hnn : NoNull (statusByDate boardJan4)).
  { intros a k v. unfold stored, boardJan4. cbn [statusByDate].
    destruct (decide (a = "X")) as [-> | Ha].
    - rewrite lookup_singleton_eq. cbn [mbind option_bind].
      destruct (decide (k = "2024-01-04")) as [-> | Hk].
      + rewrite lookup_singleton_eq. by intros [= <-].
      + by rewrite lookup_singleton_ne.
    - by rewrite lookup_singleton_ne. }
  split; [exact Hnn |].
  exact (snapshot_values bogota boardJan4 Hnn).
Defined.

(** ** C9 *)

(** C9, as stated, fails: no error is raised. An identifier with a month
    that is not a number is decoded to the invalid date, which [toISODate]
    prints without complaint and from which [diffDays] computes NaN; one
    with month 13 and day 45 is decoded to 14 February of the following
    year. *)
Lemma parseISO_raises_nothing :
  parseISO bogota "2024-mm-01" = None
  ∧ toISODate bogota (parseISO bogota "2024-mm-01") = "NaN-NaN-NaN"
  ∧ diffDays bogota "2024-mm-01" "2024-01-04" = None
  ∧ toISODate bogota (parseISO bogota "2024-13-45") = "2025-02-14".
Proof. vm_compute. repeat split; reflexivity. Qed.

(** C9, amended. [parseISO] rejects nothing. When one of the three
    components is missing, or holds a character of ASCII that no numeric
    literal has, it returns the invalid date, whose time value is NaN and
    which [toISODate] prints as NaN-NaN-NaN. When the three are decimal
    integers, written in digits with a sign or blanks around them at most
    (an empty component is 0), each below a million in size, it returns the
    local midnight of the day that [MakeDay] computes from them, whether or
    not the month and the day are in range, so that a month or a day out of
    range runs on into the neighbouring months. *)
Theorem parseISO_rejects_nothing tz iso :
  SaneZone tz →
  (∀ i, (i < 3)%nat → badComponent iso i = true →
     parseISO tz iso = None
     ∧ toISODate tz (parseISO tz iso) = "NaN-NaN-NaN")
  ∧ (∀ y m d,
       component (StringToNumber <$> split "-" iso) 0 = Some y →
       component (StringToNumber <$> split "-" iso) 1 = Some m →
       component (StringToNumber <$> split "-" iso) 2 = Some d →
       Z.abs y <= 1000000 → Z.abs m <= 1000000 → Z.abs d <= 1000000 →
       ¬ (0 <= y <= 99) → -90000000 <= MakeDay y (m - 1) d <= 90000000 →
       parseISO tz iso = midnight tz (MakeDay y (m - 1) d)).
Proof.
  intros Hz. split.
  - intros i Hi Hbad.
    assert (Hc : component (StringToNumber <$> split "-" iso) i = None).
    { unfold component, badComponent in *. rewrite list_lookup_fmap.
      destruct (split "-" iso !! i) as [t |]; [| done].
      cbn. by apply StringToNumber_foreign. }
    assert (Hnone : parseISO tz iso = None).
    { unfold parseISO.
      destruct i as [| [| [| i]]]; [| | | lia]; rewrite Hc;
        destruct (component _ 0%nat) as [y |]; try done;
        destruct (component _ 1%nat) as [m |]; done. }
    by rewrite Hnone.
  - intros y m d Hy Hm Hd _ _ _ Hyr Hclip. unfold parseISO.
    rewrite Hy, Hm, Hd. cbn [fmap option_fmap option_map].
    replace (Z.pred m) with (m - 1) by lia.
    rewrite (newDate_day tz Hz) by done.
    by apply setHours0_midnight.
Qed.

Lemma parseISO_rejects_nothing_witness :
  SaneZone bogota
  ∧ badComponent "2024-mm-01" 1 = true
  ∧ (parseISO bogota "2024-mm-01" = None
     ∧ toISODate bogota (parseISO bogota "2024-mm-01") = "NaN-NaN-NaN")
  ∧ badComponent "2024-01" 2 = true
  ∧ parseISO bogota "2024-01" = None
  ∧ component (StringToNumber <$> split "-" "2024-13-45") 0 = Some 2024
  ∧ component (StringToNumber <$> split "-" "2024-13-45") 1 = Some 13
  ∧ component (StringToNumber <$> split "-" "2024-13-45") 2 = Some 45
  ∧ Z.abs 2024 <= 1000000 ∧ Z.abs 13 <= 1000000 ∧ Z.abs 45 <= 1000000
  ∧ ¬ (0 <= 2024 <= 99)
  ∧ -90000000 <= MakeDay 2024 (13 - 1) 45 <= 90000000
  ∧ parseISO bogota "2024-13-45" = midnight bogota (MakeDay 2024 (13 - 1) 45).
Proof.
  assert (Hx : badComponent "2024-mm-01" 1 = true) by (vm_compute; reflexivity).
  assert (Hs : badComponent "2024-01" 2 = true) by (vm_compute; reflexivity).
  assert (Hy : component (StringToNumber <$> split "-" "2024-13-45") 0
               = Some 2024) by (vm_compute; reflexivity).
  assert (Hm : component (StringToNumber <$> split "-" "2024-13-45") 1
               = Some 13) by (vm_compute; reflexivity).
  assert (Hd : component (StringToNumber <$> split "-" "2024-13-45") 2
               = Some 45) by (vm_compute; reflexivity).
  assert (Hby : Z.abs 2024 <= 1000000) by lia.
  assert (Hbm : Z.abs 13 <= 1000000) by lia.
  assert (Hbd : Z.abs 45 <= 1000000) by lia.
  assert (Hyr : ¬ (0 <= 2024 <= 99)) by lia.
  assert (Hclip : -90000000 <= MakeDay 2024 (13 - 1) 45 <= 90000000)
    by (vm_compute; split; congruence).
  split; [exact bogota_sane |]. split; [exact Hx |].
  split; [| split; [exact Hs |]; split].
  - exact (proj1 (parseISO_rejects_nothing bogota "2024-mm-01" bogota_sane)
             1%nat ltac:(lia) Hx).
  - exact (proj1 (proj1 (parseISO_rejects_nothing bogota "2024-01" bogota_sane)
                    2%nat ltac:(lia) Hs)).
  - split; [exact Hy |]. split; [exact Hm |]. split; [exact Hd |].
    split; [exact Hby |]. split; [exact Hbm |]. split; [exact Hbd |].
    split; [exact Hyr |]. split; [exact Hclip |].
    exact (proj2 (parseISO_rejects_nothing bogota "2024-13-45" bogota_sane)
             2024 13 45 Hy Hm Hd Hby Hbm Hbd Hyr Hclip).
Defined.

(** ** C10 *)

Lemma stored_withoutKey (s : StatusByDate) a k a' k' :
  stored (withoutKey s a k) a' k'
  = if decide (a' = a ∧ k' = k) then None else stored s a' k'.
Proof.
  unfold stored, withoutKey. rewrite lookup_alter.
  destruct (decide (a = a')) as [-> | Ha].
  - destruct (s !! a') as [inner |]; cbn.
    + destruct (decide (k' = k)) as [-> | Hk].
      * rewrite lookup_delete_eq. by rewrite decide_True.
      * rewrite lookup_delete_ne by done.
        rewrite decide_False; [done | intros [_ ?]; done].
    + by case_decide.
  - rewrite decide_False; [done | intros [? _]; done].
Qed.

(** C10. A key of a listed activity that holds an explicit [null] for a day
    strictly between the cursor and today holds [missed] after the closure,
    and the closure returns, cell for cell and for the cursor, what it
    returns for the snapshot without that key. *)
Theorem null_closed_as_absent tz acts s lastClosed today a day :
  SaneZone tz → isValidISO lastClosed = true → isValidISO today = true →
  isValidISO day = true →
  a ∈ acts → dayOfISO lastClosed < dayOfISO day < dayOfISO today →
  stored s (id a) day = Some null →
  let r := closeMissingDays tz acts s (Some lastClosed) today in
  let r' := closeMissingDays tz acts (withoutKey s (id a) day)
              (Some lastClosed) today in
  stored r.1 (id a) day = Some missed
  ∧ (∀ a' k', stored r.1 a' k' = stored r'.1 a' k')
  ∧ r.2 = r'.2.
Proof.
  intros Hz (l & Hl & -> & Hdl)%isValidISO_day (t & Ht & -> & Hdt)%isValidISO_day
    (d & Hd & -> & Hdd)%isValidISO_day Ha Hbetween Hnull.
  rewrite Hdl, Hdt, Hdd in Hbetween. cbn zeta.
  assert (Hlt : l < t) by lia.
  destruct (closeMissingDays_valid tz Hz acts s l t Hl Ht Hlt)
    as (r & -> & Hfill & Hkeep).
  destruct (closeMissingDays_valid tz Hz acts
              (withoutKey s (id a) (isoOfDay d)) l t Hl Ht Hlt)
    as (r' & -> & Hfill' & Hkeep').
  cbn [fst snd].
  assert (Hin : id a ∈ id <$> acts
                ∧ ∃ d0, between l t d0 ∧ isoOfDay d = isoOfDay d0).
  { split; [by apply list_elem_of_fmap_2 | by exists d]. }
  split; [| split; [| done]].
  - rewrite (Hfill _ _ Hin), Hnull. done.
  - intros a' k'.
    destruct (decide (a' = id a ∧ k' = isoOfDay d)) as [[-> ->] | Hne].
    + rewrite (Hfill _ _ Hin), (Hfill' _ _ Hin), Hnull, stored_withoutKey.
      by rewrite decide_True.
    + assert (Hsame : stored (withoutKey s (id a) (isoOfDay d)) a' k'
                      = stored s a' k')
        by (rewrite stored_withoutKey; by rewrite decide_False).
      destruct (Hkeep a' k') as [He | [Hp He]];
        destruct (Hkeep' a' k') as [He' | [Hp' He']].
      * congruence.
      * rewrite (Hfill _ _ Hp'), He'. congruence.
      * rewrite (Hfill' _ _ Hp), He. congruence.
      * congruence.
Qed.

Lemma null_closed_as_absent_witness :
  SaneZone bogota ∧ isValidISO "2024-01-01" = true
  ∧ isValidISO "2024-01-04" = true ∧ isValidISO "2024-01-02" = true
  ∧ actX ∈ [actX]
  ∧ dayOfISO "2024-01-01" < dayOfISO "2024-01-02" < dayOfISO "2024-01-04"
  ∧ stored nullJan2 (id actX) "2024-01-02" = Some null
  ∧ stored (closeMissingDays bogota [actX] nullJan2
              (Some "2024-01-01") "2024-01-04").1 (id actX) "2024-01-02"
    = Some missed
  ∧ (∀ a' k',
       stored (closeMissingDays bogota [actX] nullJan2
                 (Some "2024-01-01") "2024-01-04").1 a' k'
       = stored (closeMissingDays bogota [actX]
                   (withoutKey nullJan2 (id actX) "2024-01-02")
                   (Some "2024-01-01") "2024-01-04").1 a' k')
  ∧ (closeMissingDays bogota [actX] nullJan2
       (Some "2024-01-01") "2024-01-04").2
    = (closeMissingDays bogota [actX]
         (withoutKey nullJan2 (id actX) "2024-01-02")
         (Some "2024-01-01") "2024-01-04").2.
Proof.
  assert (H1 : isValidISO "2024-01-01" = true) by (vm_compute; reflexivity).
  assert (H4 : isValidISO "2024-01-04" = true) by (vm_compute; reflexivity).
  assert (H2 : isValidISO "2024-01-02" = true) by (vm_compute; reflexivity).
  assert (Ha : actX ∈ [actX]) by (apply list_elem_of_here).
  assert (Hb : dayOfISO "2024-01-01" < dayOfISO "2024-01-02"
               < dayOfISO "2024-01-04") by (vm_compute; split; reflexivity).
  assert (Hn : stored nullJan2 (id actX) "2024-01-02" = Some null)
    by (vm_compute; reflexivity).
  split; [exact bogota_sane |]. split; [exact H1 |]. split; [exact H4 |].
  split; [exact H2 |]. split; [exact Ha |]. split; [exact Hb |].
  split; [exact Hn |].
  exact (null_closed_as_absent bogota [actX] nullJan2 "2024-01-01"
           "2024-01-04" actX "2024-01-02" bogota_sane H1 H4 H2 Ha Hb Hn).
Defined.

(** * Beyond the claims: the rest of the screen *)

(** ** Encoding and decoding days *)

Lemma toISODate_instant tz tv :
  toISODate tz (Some tv) = isoOfDay (Day (LocalTime tz tv)).
Proof. reflexivity. Qed.

Lemma setHours0_instant tz tv :
  SaneZone tz → -90000000 <= Day (LocalTime tz tv) <= 90000000 →
  setHours0 tz (Some tv) = midnight tz (Day (LocalTime tz tv)).
Proof.
  intros Hz Hn. unfold setHours0, midnight, MakeDate, MakeTime.
  replace (Day (LocalTime tz tv) * msPerDay
           + (0 * 3600000 + 0 * 60000 + 0 * 1000 + 0))
    with (Day (LocalTime tz tv) * msPerDay + 0) by lia.
  rewrite (TimeClip_local tz Hz) by (done || unfold msPerDay; lia).
  by rewrite Z.add_0_r.
Qed.

(** Moving the date of any instant by [k] days and cutting the time lands on
    the local midnight [k] days from the instant's local day. *)
Lemma setDate_instant tz tv k :
  SaneZone tz →
  -90000000 <= Day (LocalTime tz tv) + k <= 90000000 →
  setHours0 tz
    (setDate tz (Some tv) (Some (DateFromDay (Day (LocalTime tz tv)) + k)))
  = midnight tz (Day (LocalTime tz tv) + k).
Proof.
  intros Hz Hk. unfold setDate, YearFromTime, MonthFromTime, MakeDate.
  rewrite MakeDay_civil.
  assert (Hw : 0 <= TimeWithinDay (LocalTime tz tv) < msPerDay)
    by (unfold TimeWithinDay, msPerDay; zdiv).
  rewrite (TimeClip_local tz Hz) by done.
  by apply setHours0_local.
Qed.

(** X1. Decoding a well-formed identifier and encoding the date again gives
    the identifier back. *)
Theorem iso_round_trip tz s :
  SaneZone tz → isValidISO s = true → toISODate tz (parseISO tz s) = s.
Proof.
  intros Hz (n & Hn & -> & _)%isValidISO_day.
  rewrite (parseISO_isoOfDay tz Hz) by done. by apply toISODate_midnight.
Qed.

Lemma iso_round_trip_witness :
  SaneZone london ∧ isValidISO "2024-02-29" = true
  ∧ toISODate london (parseISO london "2024-02-29") = "2024-02-29".
Proof.
  assert (H : isValidISO "2024-02-29" = true) by (vm_compute; reflexivity).
  split; [exact london_sane |]. split; [exact H |].
  exact (iso_round_trip london "2024-02-29" london_sane H).
Defined.

(** X2. Encoding any instant discards its time of day: the identifier is
    well-formed, denotes the local day of the instant, and decodes to the
    local midnight of that day, which is what [setHours(0, 0, 0, 0)] makes
    of the instant. *)
Theorem toISODate_discards_time tz tv :
  SaneZone tz → validDay (Day (LocalTime tz tv)) →
  isValidISO (toISODate tz (Some tv)) = true
  ∧ dayOfISO (toISODate tz (Some tv)) = Day (LocalTime tz tv)
  ∧ parseISO tz (toISODate tz (Some tv)) = setHours0 tz (Some tv).
Proof.
  intros Hz Hn. rewrite toISODate_instant.
  destruct (isValidISO_isoOfDay _ Hn) as [Hv Hd].
  split; [done |]. split; [done |].
  rewrite (parseISO_isoOfDay tz Hz) by done.
  symmetry. apply setHours0_instant; [done | by apply validDay_clip].
Qed.

(** London, 1 April 2024, 13:30 local time (12:30 UTC). *)
Lemma toISODate_discards_time_witness :
  SaneZone london ∧ validDay (Day (LocalTime london 1711974600000))
  ∧ toISODate london (Some 1711974600000) = "2024-04-01"
  ∧ isValidISO (toISODate london (Some 1711974600000)) = true
  ∧ dayOfISO (toISODate london (Some 1711974600000))
    = Day (LocalTime london 1711974600000)
  ∧ parseISO london (toISODate london (Some 1711974600000))
    = setHours0 london (Some 1711974600000).
Proof.
  assert (H : validDay (Day (LocalTime london 1711974600000)))
    by (unfold validDay; vm_compute; split; congruence).
  split; [exact london_sane |]. split; [exact H |].
  split; [vm_compute; reflexivity |].
  exact (toISODate_discards_time london 1711974600000 london_sane H).
Defined.

(** ** Day arithmetic on identifiers *)

Lemma addDaysISO_day tz s k :
  SaneZone tz → isValidISO s = true → validDay (dayOfISO s + k) →
  addDaysISO tz s k = isoOfDay (dayOfISO s + k).
Proof.
  intros Hz (n & Hn & -> & ->)%isValidISO_day Hk.
  by apply addDaysISO_isoOfDay.
Qed.

(** X3. [addDaysISO] of a well-formed identifier is the well-formed
    identifier of the day [days] later (earlier, if negative), across the
    ends of months and years. *)
Theorem addDaysISO_adds tz s k :
  SaneZone tz → isValidISO s = true → validDay (dayOfISO s + k) →
  isValidISO (addDaysISO tz s k) = true
  ∧ dayOfISO (addDaysISO tz s k) = dayOfISO s + k.
Proof.
  intros Hz Hs Hk. rewrite (addDaysISO_day tz s k Hz Hs Hk).
  by apply isValidISO_isoOfDay.
Qed.

Lemma addDaysISO_adds_witness :
  SaneZone london ∧ isValidISO "2023-12-31" = true
  ∧ validDay (dayOfISO "2023-12-31" + 61)
  ∧ addDaysISO london "2023-12-31" 61 = "2024-03-01"
  ∧ isValidISO (addDaysISO london "2023-12-31" 61) = true
  ∧ dayOfISO (addDaysISO london "2023-12-31" 61) = dayOfISO "2023-12-31" + 61.
Proof.
  assert (Hs : isValidISO "2023-12-31" = true) by (vm_compute; reflexivity).
  assert (Hk : validDay (dayOfISO "2023-12-31" + 61))
    by (unfold validDay; vm_compute; split; congruence).
  split; [exact london_sane |]. split; [exact Hs |]. split; [exact Hk |].
  split; [vm_compute; reflexivity |].
  exact (addDaysISO_adds london "2023-12-31" 61 london_sane Hs Hk).
Defined.

(** The steps of the specification's examples, run in a zone with a change
    of offset in the night. *)
Example month_ends :
  addDaysISO london "2024-01-31" 1 = "2024-02-01"
  ∧ addDaysISO london "2024-02-28" 1 = "2024-02-29"
  ∧ addDaysISO london "2023-02-28" 1 = "2023-03-01"
  ∧ addDaysISO london "2024-03-30" 1 = "2024-03-31"
  ∧ addDaysISO london "2024-03-31" 1 = "2024-04-01"
  ∧ addDaysISO london "2024-10-27" 1 = "2024-10-28"
  ∧ addDaysISO london "2024-01-01" (-1) = "2023-12-31".
Proof. vm_compute. repeat split; reflexivity. Qed.

(** X4. [addDaysISO] and [diffDays] undo each other on well-formed
    identifiers, adding no day changes nothing, and two additions make one
    addition of the sum. *)
Theorem addDaysISO_diffDays tz a b j k :
  SaneZone tz → isValidISO a = true → isValidISO b = true →
  validDay (dayOfISO a + j) → validDay (dayOfISO a + j + k) →
  addDaysISO tz a 0 = a
  ∧ addDaysISO tz (addDaysISO tz a j) k = addDaysISO tz a (j + k)
  ∧ diffDays tz a (addDaysISO tz a j) = Some j
  ∧ ∃ n, diffDays tz a b = Some n ∧ addDaysISO tz a n = b.
Proof.
  intros Hz Ha Hb Hj Hjk.
  pose proof (addDaysISO_day tz a j Hz Ha Hj) as Ej.
  destruct (isValidISO_isoOfDay _ Hj) as [Hvj Hdj].
  destruct (isValidISO_day a Ha) as (l & Hl & -> & Hdl).
  destruct (isValidISO_day b Hb) as (t & Ht & -> & Hdt).
  rewrite Hdl in *.
  split; [| split; [| split]].
  - rewrite (addDaysISO_isoOfDay tz Hz) by (by rewrite ?Z.add_0_r).
    by rewrite Z.add_0_r.
  - rewrite Ej.
    rewrite !(addDaysISO_isoOfDay tz Hz) by (done || by rewrite Z.add_assoc).
    by rewrite Z.add_assoc.
  - rewrite Ej. rewrite (diffDays_isoOfDay tz Hz) by done. f_equal. lia.
  - exists (t - l). split; [by apply diffDays_isoOfDay |].
    rewrite (addDaysISO_isoOfDay tz Hz)
      by (done || by replace (l + (t - l)) with t by lia).
    f_equal. lia.
Qed.

Lemma addDaysISO_diffDays_witness :
  SaneZone london ∧ isValidISO "2024-03-30" = true
  ∧ isValidISO "2024-10-28" = true
  ∧ validDay (dayOfISO "2024-03-30" + 2)
  ∧ validDay (dayOfISO "2024-03-30" + 2 + 210)
  ∧ addDaysISO london "2024-03-30" 0 = "2024-03-30"
  ∧ addDaysISO london (addDaysISO london "2024-03-30" 2) 210
    = addDaysISO london "2024-03-30" (2 + 210)
  ∧ diffDays london "2024-03-30" (addDaysISO london "2024-03-30" 2) = Some 2
  ∧ ∃ n, diffDays london "2024-03-30" "2024-10-28" = Some n
         ∧ addDaysISO london "2024-03-30" n = "2024-10-28".
Proof.
  assert (Ha : isValidISO "2024-03-30" = true) by (vm_compute; reflexivity).
  assert (Hb : isValidISO "2024-10-28" = true) by (vm_compute; reflexivity).
  assert (Hj : validDay (dayOfISO "2024-03-30" + 2))
    by (unfold validDay; vm_compute; split; congruence).
  assert (Hjk : validDay (dayOfISO "2024-03-30" + 2 + 210))
    by (unfold validDay; vm_compute; split; congruence).
  split; [exact london_sane |]. split; [exact Ha |]. split; [exact Hb |].
  split; [exact Hj |]. split; [exact Hjk |].
  exact (addDaysISO_diffDays london "2024-03-30" "2024-10-28" 2 210
           london_sane Ha Hb Hj Hjk).
Defined.

(** ** The week shown *)

Section WeekFacts.

Variable tz : Z → bool → Z.
Hypothesis sane : SaneZone tz.

Lemma getDay_midnight m : getDay tz (midnight tz m) = Some ((m + 4) mod 7).
Proof.
  unfold getDay, midnight, WeekDay. cbn [fmap option_fmap option_map compose].
  rewrite <- (Z.add_0_r (m * msPerDay)).
  by rewrite (Day_local tz sane) by (unfold msPerDay; lia).
Qed.

(** The Monday of the week of any instant. *)
Lemma startOfWeekMonday_instant tv :
  -89999990 <= Day (LocalTime tz tv) <= 90000000 →
  startOfWeekMonday tz (Some tv)
  = midnight tz (Day (LocalTime tz tv) - (Day (LocalTime tz tv) + 3) mod 7).
Proof.
  intros Hn. unfold startOfWeekMonday, getDay, getDate, DateFromTime, WeekDay.
  cbn [fmap option_fmap option_map compose jsAdd].
  set (n := Day (LocalTime tz tv)) in *.
  rewrite (setDate_instant tz tv _ sane); fold n.
  - f_equal. destruct (Z.eqb_spec ((n + 4) mod 7) 0); zdiv.
  - destruct (Z.eqb_spec ((n + 4) mod 7) 0); zdiv.
Qed.

Lemma startOfWeekMonday_midnight n :
  -89999990 <= n <= 90000000 →
  startOfWeekMonday tz (midnight tz n) = midnight tz (n - (n + 3) mod 7).
Proof.
  intros Hn. unfold midnight at 1.
  assert (Hd : Day (LocalTime tz (UTC tz (n * msPerDay))) = n).
  { rewrite <- (Z.add_0_r (n * msPerDay)).
    apply (Day_local tz sane). unfold msPerDay. lia. }
  rewrite startOfWeekMonday_instant; rewrite Hd; done.
Qed.

Lemma weekDates_lookup today m i :
  weekStart tz today = midnight tz m →
  -90000000 <= m → m + 6 <= 90000000 → 0 <= i < 7 →
  weekDates tz today !! Z.to_nat i = Some (midnight tz (m + i)).
Proof.
  intros Hm Hlo Hhi Hi. unfold weekDates.
  rewrite arrayFrom_lookup by done. rewrite Hm.
  by rewrite (addDays_midnight tz sane) by lia.
Qed.

End WeekFacts.

Lemma validDay_inner n : validDay n → -80000000 <= n <= 80000000.
Proof. unfold validDay, DayFromYear. zdiv. Qed.

(** X5. For a well-formed today, the week starts on the local midnight of
    the Monday on or before today, at most six days back, and taking the
    start of that Monday's week gives the same Monday. *)
Theorem weekStart_monday tz today :
  SaneZone tz → isValidISO today = true → validDay (dayOfISO today - 6) →
  ∃ m, weekStart tz today = midnight tz m
       ∧ m <= dayOfISO today <= m + 6
       ∧ getDay tz (weekStart tz today) = Some 1
       ∧ toISODate tz (weekStart tz today) = isoOfDay m
       ∧ startOfWeekMonday tz (weekStart tz today) = weekStart tz today.
Proof.
  intros Hz (t & Ht & -> & Hdt)%isValidISO_day H6. rewrite Hdt in *.
  pose proof (validDay_inner t Ht) as Hc. pose proof (validDay_inner _ H6) as Hc6.
  exists (t - (t + 3) mod 7).
  assert (Hw : weekStart tz (isoOfDay t) = midnight tz (t - (t + 3) mod 7)).
  { unfold weekStart. rewrite (parseISO_isoOfDay tz Hz) by done.
    apply (startOfWeekMonday_midnight tz Hz). lia. }
  rewrite Hw. split; [done |]. split; [zdiv |].
  split; [| split].
  - rewrite (getDay_midnight tz Hz). f_equal. zdiv.
  - by apply toISODate_midnight.
  - rewrite (startOfWeekMonday_midnight tz Hz) by zdiv. f_equal. zdiv.
Qed.

(** Sunday 31 March 2024 in London, the day of the change of offset: the
    week starts on Monday the 25th. *)
Lemma weekStart_monday_witness :
  SaneZone london ∧ isValidISO "2024-03-31" = true
  ∧ validDay (dayOfISO "2024-03-31" - 6)
  ∧ toISODate london (weekStart london "2024-03-31") = "2024-03-25"
  ∧ ∃ m, weekStart london "2024-03-31" = midnight london m
         ∧ m <= dayOfISO "2024-03-31" <= m + 6
         ∧ getDay london (weekStart london "2024-03-31") = Some 1
         ∧ toISODate london (weekStart london "2024-03-31") = isoOfDay m
         ∧ startOfWeekMonday london (weekStart london "2024-03-31")
           = weekStart london "2024-03-31".
Proof.
  assert (Ht : isValidISO "2024-03-31" = true) by (vm_compute; reflexivity).
  assert (H6 : validDay (dayOfISO "2024-03-31" - 6))
    by (unfold validDay; vm_compute; split; congruence).
  split; [exact london_sane |]. split; [exact Ht |]. split; [exact H6 |].
  split; [vm_compute; reflexivity |].
  exact (weekStart_monday london "2024-03-31" london_sane Ht H6).
Defined.

(** X6. The board shows seven consecutive days, Monday to Sunday in the
    order of the labels L M M J V S D, and today is one of them: exactly one
    column has today's identifier, the one the press of a cell answers
    to. *)
Theorem week_shown tz today :
  SaneZone tz → isValidISO today = true →
  validDay (dayOfISO today - 6) → validDay (dayOfISO today + 6) →
  length (weekDates tz today) = length weekdayLabels
  ∧ ∃ m, m <= dayOfISO today <= m + 6
         ∧ ∀ i, 0 <= i < 7 →
             ∃ d, weekDates tz today !! Z.to_nat i = Some d
                  ∧ getDay tz d = Some ((i + 1) mod 7)
                  ∧ isValidISO (toISODate tz d) = true
                  ∧ dayOfISO (toISODate tz d) = m + i
                  ∧ (toISODate tz d = today ↔ i = dayOfISO today - m).
Proof.
  intros Hz Ht H6 H6'.
  destruct (weekStart_monday tz today Hz Ht H6) as (m & Hm & Hr & _).
  destruct (isValidISO_day today Ht) as (t & Hvt & -> & Hdt). rewrite Hdt in *.
  pose proof (validDay_inner _ H6) as Hc. pose proof (validDay_inner _ H6') as Hc'.
  split; [unfold weekDates; by rewrite arrayFrom_length |].
  exists m. split; [done |]. intros i Hi.
  exists (midnight tz (m + i)).
  assert (Hv : validDay (m + i)) by (unfold validDay in *; lia).
  destruct (isValidISO_isoOfDay _ Hv) as [Hvi Hdi].
  split; [apply (weekDates_lookup tz Hz _ m); (done || lia) |].
  split.
  { rewrite (getDay_midnight tz Hz).
    pose proof (startOfWeekMonday_midnight tz Hz t ltac:(lia)) as Hs.
    unfold weekStart in Hm. rewrite (parseISO_isoOfDay tz Hz) in Hm by done.
    rewrite Hs in Hm. unfold midnight in Hm. injection Hm as Hm.
    f_equal.
    assert (Hmm : m = t - (t + 3) mod 7).
    { assert (Hw : 0 <= 0 < msPerDay) by (unfold msPerDay; lia).
      pose proof (Day_local tz Hz m 0 Hw) as D1.
      pose proof (Day_local tz Hz (t - (t + 3) mod 7) 0 Hw) as D2.
      rewrite !Z.add_0_r in *. rewrite <- Hm in D1. congruence. }
    zdiv. }
  rewrite (toISODate_midnight tz Hz).
  split; [done |]. split; [done |]. split.
  - intros He. apply isoOfDay_inj in He; [lia | done | done].
  - intros ->. f_equal. lia.
Qed.

Lemma week_shown_witness :
  SaneZone london ∧ isValidISO "2024-03-31" = true
  ∧ validDay (dayOfISO "2024-03-31" - 6) ∧ validDay (dayOfISO "2024-03-31" + 6)
  ∧ toISODate london <$> weekDates london "2024-03-31"
    = ["2024-03-25"; "2024-03-26"; "2024-03-27"; "2024-03-28"; "2024-03-29";
       "2024-03-30"; "2024-03-31"]
  ∧ length (weekDates london "2024-03-31") = length weekdayLabels
  ∧ ∃ m, m <= dayOfISO "2024-03-31" <= m + 6
         ∧ ∀ i, 0 <= i < 7 →
             ∃ d, weekDates london "2024-03-31" !! Z.to_nat i = Some d
                  ∧ getDay london d = Some ((i + 1) mod 7)
                  ∧ isValidISO (toISODate london d) = true
                  ∧ dayOfISO (toISODate london d) = m + i
                  ∧ (toISODate london d = "2024-03-31"
                     ↔ i = dayOfISO "2024-03-31" - m).
Proof.
  assert (Ht : isValidISO "2024-03-31" = true) by (vm_compute; reflexivity).
  assert (H6 : validDay (dayOfISO "2024-03-31" - 6))
    by (unfold validDay; vm_compute; split; congruence).
  assert (H6' : validDay (dayOfISO "2024-03-31" + 6))
    by (unfold validDay; vm_compute; split; congruence).
  split; [exact london_sane |]. split; [exact Ht |]. split; [exact H6 |].
  split; [exact H6' |]. split; [vm_compute; reflexivity |].
  exact (week_shown london "2024-03-31" london_sane Ht H6 H6').
Defined.

(** ** More on the closure *)

Lemma closeDays_listed tz acts lastClosed today left i s a k :
  a ∉ id <$> acts →
  stored (closeDays tz acts lastClosed today left i s) a k = stored s a k.
Proof.
  intros Ha. revert i s.
  induction left as [| left IH]; intros i s; cbn [closeDays]; [done |].
  destruct (String.eqb _ today); [done |]. rewrite IH.
  destruct (closeDay_closedOver (addDaysISO tz lastClosed i) acts s)
    as [_ Hday].
  by destruct (Hday a k) as [-> | [[Hin _] _]].
Qed.

Lemma closeMissingDays_listed tz acts s lastClosed today a k :
  a ∉ id <$> acts →
  stored (closeMissingDays tz acts s lastClosed today).1 a k = stored s a k.
Proof.
  intros Ha. destruct lastClosed as [lc |]; [| done].
  destruct (diffDays tz lc today) as [n |] eqn:Hn.
  - rewrite (closeMissingDays_some tz acts s lc today n Hn).
    destruct (n <=? 0); [done |]. by apply closeDays_listed.
  - by rewrite closeMissingDays_nan.
Qed.

Lemma closeDays_nobody tz lastClosed today left i s :
  closeDays tz [] lastClosed today left i s = s.
Proof.
  revert i. induction left as [| left IH]; intros i; cbn [closeDays]; [done |].
  destruct (String.eqb _ today); [done |]. apply IH.
Qed.

Lemma closeMissingDays_twice tz acts s lastClosed today :
  closeMissingDays tz acts (closeMissingDays tz acts s lastClosed today).1
    (Some (closeMissingDays tz acts s lastClosed today).2) today
  = closeMissingDays tz acts s lastClosed today.
Proof.
  destruct lastClosed as [lc |].
  - destruct (diffDays tz lc today) as [n |] eqn:Hn.
    + rewrite (closeMissingDays_some tz acts s lc today n Hn).
      destruct (Z.leb_spec n 0) as [Hle | Hgt]; cbn [fst snd].
      * rewrite (closeMissingDays_some tz acts s lc today n Hn).
        by destruct (Z.leb_spec n 0); [| lia].
      * apply closeMissingDays_again.
    + rewrite (closeMissingDays_nan tz acts s lc today Hn). cbn [fst snd].
      apply closeMissingDays_again.
  - cbn [closeMissingDays fst snd]. apply closeMissingDays_again.
Qed.

(** X7. The closure writes only under the identifiers of the activities it
    is given: every cell of any other identifier is left as it was, so once
    an activity is deleted its history gets no further entry when the
    application comes back to the foreground. *)
Theorem deleted_not_backfilled tz st newToday :
  (∀ a k, a ∉ id <$> activities st →
     stored (statusByDate (onForeground tz newToday st)) a k
     = stored (statusByDate st) a k)
  ∧ (∀ x k,
       stored (statusByDate
                 (onForeground tz newToday (deleteActivity true x st))) x k
       = stored (statusByDate st) x k).
Proof.
  split.
  - intros a k Ha. unfold onForeground. cbn [statusByDate].
    by apply closeMissingDays_listed.
  - intros x k. unfold onForeground, deleteActivity. cbn [statusByDate activities].
    apply closeMissingDays_listed.
    intros (a & -> & Hin)%list_elem_of_fmap.
    by apply list_elem_of_filter in Hin as [Hne _].
Qed.

(** X8. With no activity in the list the closure writes nothing, and the
    cursor still moves to today. *)
Theorem no_activities_no_writes tz s lastClosed today :
  SaneZone tz → isValidISO lastClosed = true → isValidISO today = true →
  dayOfISO lastClosed < dayOfISO today →
  closeMissingDays tz [] s (Some lastClosed) today = (s, today).
Proof.
  intros Hz (l & Hl & -> & Hdl)%isValidISO_day (t & Ht & -> & Hdt)%isValidISO_day.
  rewrite Hdl, Hdt. intros Hlt.
  rewrite (closeMissingDays_some tz [] s _ _ (t - l))
    by by apply diffDays_isoOfDay.
  destruct (Z.leb_spec (t - l) 0); [lia |]. by rewrite closeDays_nobody.
Qed.

Lemma no_activities_no_writes_witness :
  SaneZone bogota ∧ isValidISO "2024-01-01" = true
  ∧ isValidISO "2024-01-04" = true
  ∧ dayOfISO "2024-01-01" < dayOfISO "2024-01-04"
  ∧ closeMissingDays bogota [] doneJan2 (Some "2024-01-01") "2024-01-04"
    = (doneJan2, "2024-01-04").
Proof.
  assert (H1 : isValidISO "2024-01-01" = true) by (vm_compute; reflexivity).
  assert (H4 : isValidISO "2024-01-04" = true) by (vm_compute; reflexivity).
  assert (Hlt : dayOfISO "2024-01-01" < dayOfISO "2024-01-04")
    by (vm_compute; reflexivity).
  split; [exact bogota_sane |]. split; [exact H1 |]. split; [exact H4 |].
  split; [exact Hlt |].
  exact (no_activities_no_writes bogota doneJan2 "2024-01-01" "2024-01-04"
           bogota_sane H1 H4 Hlt).
Defined.

(** X9. A day on which the application was opened is never closed. Closing
    up to a day in between and then up to today gives, for every other day,
    the cells that closing up to today at once gives; the cells of the day
    in between, which was today at the first closure and the cursor at the
    second, are left as they were, and so are those of the first cursor. *)
Theorem opened_day_exempt tz acts s lastClosed mid today :
  SaneZone tz → isValidISO lastClosed = true → isValidISO mid = true →
  isValidISO today = true →
  dayOfISO lastClosed < dayOfISO mid < dayOfISO today →
  let r1 := closeMissingDays tz acts s (Some lastClosed) mid in
  let r2 := closeMissingDays tz acts r1.1 (Some r1.2) today in
  let r := closeMissingDays tz acts s (Some lastClosed) today in
  r2.2 = r.2
  ∧ (∀ a k, k ≠ mid → stored r2.1 a k = stored r.1 a k)
  ∧ (∀ a, stored r2.1 a mid = stored s a mid)
  ∧ (∀ a, stored r.1 a lastClosed = stored s a lastClosed
          ∧ stored r2.1 a lastClosed = stored s a lastClosed).
Proof.
  intros Hz (l & Hl & -> & Hdl)%isValidISO_day (m & Hm & -> & Hdm)%isValidISO_day
    (t & Ht & -> & Hdt)%isValidISO_day.
  rewrite Hdl, Hdm, Hdt. intros Hlmt. cbn zeta.
  destruct (closeMissingDays_valid tz Hz acts s l m Hl Hm ltac:(lia))
    as (r1 & -> & F1 & K1).
  cbn [fst snd].
  destruct (closeMissingDays_valid tz Hz acts r1 m t Hm Ht ltac:(lia))
    as (r2 & -> & F2 & K2).
  destruct (closeMissingDays_valid tz Hz acts s l t Hl Ht ltac:(lia))
    as (r & -> & F & K).
  cbn [fst snd].
  destruct (closedOver_trans _ _ s r1 r2 (conj F1 K1) (conj F2 K2)) as [F12 K12].
  cbn beta in F12, K12.
  assert (Hwide : ∀ a k,
            (a ∈ id <$> acts ∧ (∃ d, between l m d ∧ k = isoOfDay d))
            ∨ (a ∈ id <$> acts ∧ (∃ d, between m t d ∧ k = isoOfDay d)) →
            a ∈ id <$> acts ∧ ∃ d, between l t d ∧ k = isoOfDay d).
  { unfold between. intros a k [(Ha & d & Hd & ->) | (Ha & d & Hd & ->)];
      (split; [done |]); exists d; (split; [lia | done]). }
  assert (Hsame : ∀ d d', validDay d → between l t d' ∨ between l m d'
                                       ∨ between m t d' →
                          isoOfDay d = isoOfDay d' → d = d').
  { intros d d' Hd Hd' He. apply isoOfDay_inj; [done | | done].
    unfold between, validDay in *. lia. }
  split; [done |]. split; [| split].
  - intros a k Hk.
    destruct (K12 a k) as [E2 | [P2 E2]]; destruct (K a k) as [E | [P E]].
    + congruence.
    + destruct P as (Ha & d & Hd & ->).
      assert (Hdm' : d ≠ m) by (intros ->; done).
      rewrite E. apply F12. unfold between in *.
      destruct (Z.lt_ge_cases d m); [left | right];
        (split; [done |]); exists d; (split; [lia | done]).
    + rewrite E2. symmetry. apply F. by apply Hwide.
    + congruence.
  - intros a. destruct (K12 a (isoOfDay m)) as [E | [P _]]; [done |].
    exfalso. destruct P as [(_ & d & Hd & He) | (_ & d & Hd & He)];
      apply Hsame in He; try done; unfold between in Hd; try lia; auto.
  - intros a. split.
    + destruct (K a (isoOfDay l)) as [E | [(_ & d & Hd & He) _]]; [done |].
      exfalso. apply Hsame in He; [unfold between in Hd; lia | done | auto].
    + destruct (K12 a (isoOfDay l)) as [E | [P _]]; [done |].
      exfalso. destruct P as [(_ & d & Hd & He) | (_ & d & Hd & He)];
        apply Hsame in He; try done; unfold between in Hd; try lia; auto.
Qed.

Lemma opened_day_exempt_witness :
  SaneZone bogota ∧ isValidISO "2024-01-01" = true
  ∧ isValidISO "2024-01-03" = true ∧ isValidISO "2024-01-05" = true
  ∧ dayOfISO "2024-01-01" < dayOfISO "2024-01-03" < dayOfISO "2024-01-05"
  ∧ (closeMissingDays bogota [actX]
       (closeMissingDays bogota [actX] ∅ (Some "2024-01-01") "2024-01-03").1
       (Some "2024-01-03") "2024-01-05").1
    = {[ "X" := {[ "2024-01-02" := missed; "2024-01-04" := missed ]} ]}
  ∧ (closeMissingDays bogota [actX]
       (closeMissingDays bogota [actX] ∅ (Some "2024-01-01") "2024-01-03").1
       (Some (closeMissingDays bogota [actX] ∅ (Some "2024-01-01")
                "2024-01-03").2) "2024-01-05").2
    = (closeMissingDays bogota [actX] ∅ (Some "2024-01-01") "2024-01-05").2
  ∧ (∀ a k, k ≠ "2024-01-03" →
       stored (closeMissingDays bogota [actX]
                 (closeMissingDays bogota [actX] ∅ (Some "2024-01-01")
                    "2024-01-03").1
                 (Some (closeMissingDays bogota [actX] ∅ (Some "2024-01-01")
                          "2024-01-03").2) "2024-01-05").1 a k
       = stored (closeMissingDays bogota [actX] ∅ (Some "2024-01-01")
                   "2024-01-05").1 a k)
  ∧ (∀ a,
       stored (closeMissingDays bogota [actX]
                 (closeMissingDays bogota [actX] ∅ (Some "2024-01-01")
                    "2024-01-03").1
                 (Some (closeMissingDays bogota [actX] ∅ (Some "2024-01-01")
                          "2024-01-03").2) "2024-01-05").1 a "2024-01-03"
       = stored ∅ a "2024-01-03")
  ∧ (∀ a,
       stored (closeMissingDays bogota [actX] ∅ (Some "2024-01-01")
                 "2024-01-05").1 a "2024-01-01" = stored ∅ a "2024-01-01"
       ∧ stored (closeMissingDays bogota [actX]
                   (closeMissingDays bogota [actX] ∅ (Some "2024-01-01")
                      "2024-01-03").1
                   (Some (closeMissingDays bogota [actX] ∅ (Some "2024-01-01")
                            "2024-01-03").2) "2024-01-05").1 a "2024-01-01"
         = stored ∅ a "2024-01-01").
Proof.
  assert (H1 : isValidISO "2024-01-01" = true) by (vm_compute; reflexivity).
  assert (H3 : isValidISO "2024-01-03" = true) by (vm_compute; reflexivity).
  assert (H5 : isValidISO "2024-01-05" = true) by (vm_compute; reflexivity).
  assert (Hb : dayOfISO "2024-01-01" < dayOfISO "2024-01-03"
               < dayOfISO "2024-01-05") by (vm_compute; split; reflexivity).
  split; [exact bogota_sane |]. split; [exact H1 |]. split; [exact H3 |].
  split; [exact H5 |]. split; [exact Hb |].
  split; [vm_compute; reflexivity |].
  exact (opened_day_exempt bogota [actX] ∅ "2024-01-01" "2024-01-03"
           "2024-01-05" bogota_sane H1 H3 H5 Hb).
Defined.

(** ** The list of activities and the press of a cell *)

Section BoardFacts.

Local Open Scope string_scope.

Lemma trimEnd_cons c r :
  isWhite c = false → trimEnd (String c r) = String c (trimEnd r).
Proof. intros Hc. cbn [trimEnd]. rewrite Hc. by destruct (trimEnd r). Qed.

Lemma trimEnd_trimEnd s : trimEnd (trimEnd s) = trimEnd s.
Proof.
  induction s as [| c r IH]; [done |]. cbn [trimEnd].
  destruct (trimEnd r) as [| c' r'] eqn:Hr.
  - destruct (isWhite c) eqn:Hc; [done |]. cbn [trimEnd]. by rewrite Hc.
  - change (trimEnd (String c (String c' r')) = String c (String c' r')).
    cbn [trimEnd] in IH |- *. by rewrite IH.
Qed.

Lemma trimStart_head s :
  trimStart s = "" ∨ ∃ c r, trimStart s = String c r ∧ isWhite c = false.
Proof.
  induction s as [| c r IH]; [by left |]. cbn [trimStart].
  destruct (isWhite c) eqn:Hc; [done |]. right. by exists c, r.
Qed.

Lemma trimStart_blank s :
  trimStart s = "" ↔ anyChar (fun c => negb (isWhite c)) s = false.
Proof.
  induction s as [| c r IH]; [done |]. cbn [trimStart anyChar].
  destruct (isWhite c); cbn [negb orb]; [done |]. split; discriminate.
Qed.

Lemma trim_blank s :
  trim s = "" ↔ anyChar (fun c => negb (isWhite c)) s = false.
Proof.
  rewrite <- trimStart_blank. unfold trim.
  destruct (trimStart_head s) as [-> | (c & r & -> & Hc)]; [done |].
  rewrite (trimEnd_cons c r Hc). split; discriminate.
Qed.

Lemma trim_trim s : trim (trim s) = trim s.
Proof.
  unfold trim.
  destruct (trimStart_head s) as [-> | (c & r & -> & Hc)]; [done |].
  rewrite (trimEnd_cons c r Hc). cbn [trimStart]. rewrite Hc.
  rewrite <- (trimEnd_cons c r Hc). apply trimEnd_trimEnd.
Qed.

End BoardFacts.

(** X10. For a name typed that holds no blank beyond ASCII, on which [trim]
    is the [trim] of the host: [addActivity] does nothing when the name is
    empty or made of blanks only; otherwise it puts one activity at the
    front of the list, under the identifier drawn and with the name trimmed
    (trimming it again changes nothing), and leaves the rest of the list,
    the snapshot, the cursor and today as they were. *)
Theorem addActivity_front newName uid st :
  hasWideBlank newName = false →
  (anyChar (fun c => negb (isWhite c)) newName = false →
   addActivity newName uid st = st)
  ∧ (anyChar (fun c => negb (isWhite c)) newName = true →
     activities (addActivity newName uid st)
     = {| id := uid; name := trim newName |} :: activities st
     ∧ trim newName ≠ EmptyString
     ∧ trim (trim newName) = trim newName
     ∧ statusByDate (addActivity newName uid st) = statusByDate st
     ∧ lastClosedISO (addActivity newName uid st) = lastClosedISO st
     ∧ todayISO (addActivity newName uid st) = todayISO st).
Proof.
  intros _. split.
  - intros Hb%trim_blank. unfold addActivity. by rewrite Hb.
  - intros Hn.
    assert (Hne : trim newName ≠ EmptyString).
    { intros Hb%trim_blank. congruence. }
    pose proof (trim_trim newName) as Htt.
    unfold addActivity. destruct (trim newName) as [| c r] eqn:Ht; [done |].
    done.
Qed.

(** A name typed with blanks around it, and a name of blanks. *)
Lemma addActivity_front_witness :
  hasWideBlank "  Leer 20 min " = false
  ∧ hasWideBlank "   " = false
  ∧ anyChar (fun c => negb (isWhite c)) "  Leer 20 min " = true
  ∧ anyChar (fun c => negb (isWhite c)) "   " = false
  ∧ trim "  Leer 20 min " = "Leer 20 min"%string
  ∧ activities (addActivity "  Leer 20 min " "Y" boardJan4)
    = {| id := "Y"; name := trim "  Leer 20 min " |} :: activities boardJan4
  ∧ addActivity "   " "Y" boardJan4 = boardJan4.
Proof.
  assert (Hw : hasWideBlank "  Leer 20 min " = false)
    by (vm_compute; reflexivity).
  assert (Hw' : hasWideBlank "   " = false) by (vm_compute; reflexivity).
  assert (Hn : anyChar (fun c => negb (isWhite c)) "  Leer 20 min " = true)
    by (vm_compute; reflexivity).
  assert (Hb : anyChar (fun c => negb (isWhite c)) "   " = false)
    by (vm_compute; reflexivity).
  split; [exact Hw |]. split; [exact Hw' |]. split; [exact Hn |].
  split; [exact Hb |]. split; [vm_compute; reflexivity |]. split.
  - exact (proj1 (proj2 (addActivity_front "  Leer 20 min " "Y" boardJan4 Hw)
                    Hn)).
  - exact (proj1 (addActivity_front "   " "Y" boardJan4 Hw') Hb).
Defined.

(** X11. After a confirmed deletion no activity with the deleted identifier
    is left; the other activities stay, in their order; deleting again, or
    deleting an identifier that is not in the list, changes nothing; a
    deletion that is cancelled changes nothing; and deleting an activity
    just added under a fresh identifier gives the former list back. *)
Theorem deleteActivity_list x st :
  (x ∉ (id <$> activities (deleteActivity true x st)))
  ∧ (∀ a, a ∈ activities (deleteActivity true x st)
          ↔ a ∈ activities st ∧ id a ≠ x)
  ∧ (activities (deleteActivity true x st)) `sublist_of` (activities st)
  ∧ deleteActivity true x (deleteActivity true x st) = deleteActivity true x st
  ∧ deleteActivity false x st = st
  ∧ (x ∉ id <$> activities st →
     activities (deleteActivity true x st) = activities st
     ∧ ∀ newName,
         activities (deleteActivity true x (addActivity newName x st))
         = activities st).
Proof.
  assert (Hfresh : ∀ l : list Activity,
            x ∉ id <$> l → filter (fun a => id a ≠ x) l = l).
  { induction l as [| a l IH]; [done |]. intros Hx.
    rewrite fmap_cons in Hx. apply not_elem_of_cons in Hx as [Hne Hx].
    rewrite filter_cons_True by done. by rewrite IH. }
  assert (Hgone : x ∉ id <$> filter (fun a => id a ≠ x) (activities st)).
  { intros (a & -> & Hin)%list_elem_of_fmap.
    by apply list_elem_of_filter in Hin as [Hne _]. }
  cbn [deleteActivity activities].
  split; [done |]. split; [| split; [| split; [| split]]].
  - intros a. rewrite list_elem_of_filter. tauto.
  - apply sublist_filter.
  - f_equal. by apply Hfresh.
  - done.
  - intros Hx. split; [by apply Hfresh |].
    intros newName. unfold addActivity.
    destruct (trim newName); cbn [activities]; [by apply Hfresh |].
    rewrite filter_cons_False by (cbn; tauto). by apply Hfresh.
Qed.

(** X12. A press on today's cell changes that cell alone: every other cell,
    the list of activities, the cursor and today stay as they were. The
    cell then reads [done], unless it read [done] before, in which case it
    reads as empty; and a second press gives back what the cell read
    before the first, unless that was [missed]. *)
Theorem press_changes_one_cell a st :
  let st1 := onPressCell a (todayISO st) st in
  let st2 := onPressCell a (todayISO st1) st1 in
  getStatus (statusByDate st1) a (todayISO st)
  = cycleTodayStatus (getStatus (statusByDate st) a (todayISO st))
  ∧ (getStatus (statusByDate st) a (todayISO st) ≠ missed →
     getStatus (statusByDate st2) a (todayISO st)
     = getStatus (statusByDate st) a (todayISO st))
  ∧ (∀ a' k', ¬ (a' = a ∧ k' = todayISO st) →
       stored (statusByDate st1) a' k' = stored (statusByDate st) a' k')
  ∧ activities st1 = activities st
  ∧ lastClosedISO st1 = lastClosedISO st
  ∧ todayISO st1 = todayISO st.
Proof.
  cbn zeta.
  assert (Ht : todayISO (onPressCell a (todayISO st) st) = todayISO st).
  { unfold onPressCell. by rewrite decide_True. }
  assert (H1 : getStatus (statusByDate (onPressCell a (todayISO st) st)) a
                 (todayISO st)
               = cycleTodayStatus (getStatus (statusByDate st) a (todayISO st))).
  { unfold getStatus at 1.
    by rewrite onPressCell_today, stored_withStatus, decide_True. }
  split; [done |]. split; [| split; [| split; [| split]]].
  - intros Hm.
    pose proof (onPressCell_today a (onPressCell a (todayISO st) st)) as E.
    unfold getStatus at 1. rewrite E, stored_withStatus.
    rewrite decide_True by by rewrite Ht.
    rewrite Ht, H1.
    by destruct (getStatus (statusByDate st) a (todayISO st)).
  - intros a' k' Hne. rewrite onPressCell_today, stored_withStatus.
    by rewrite decide_False.
  - unfold onPressCell. by rewrite decide_True.
  - unfold onPressCell. by rewrite decide_True.
  - done.
Qed.

(** ** The chart *)

Lemma fold_max_spec (l : list Z) acc :
  acc <= fold_left Z.max l acc
  ∧ (∀ v, v ∈ l → v <= fold_left Z.max l acc)
  ∧ (fold_left Z.max l acc = acc ∨ fold_left Z.max l acc ∈ l).
Proof.
  revert acc. induction l as [| x l IH]; intros acc; cbn [fold_left].
  - split; [lia |]. split; [| by left]. intros v Hv. by apply elem_of_nil in Hv.
  - destruct (IH (Z.max acc x)) as (Hge & Hall & Hin).
    split; [lia |]. split.
    + intros v [-> | Hv]%elem_of_cons; [lia | by apply Hall].
    + destruct Hin as [-> | Hin].
      * destruct (Z.max_spec acc x) as [[_ ->] | [_ ->]];
          [right; apply elem_of_cons; by left | by left].
      * right. apply elem_of_cons. by right.
Qed.

(** X13. Under the chart, the labels of the days of the month that are
    multiples of 5 are shown and every other label is blanked; there are as
    many as the month has days. *)
Theorem sparse_labels tz y mn s today n i :
  daysInMonth tz y mn = Some n → 0 <= i < n →
  length (sparseLabels (buildMonthlySeries tz y mn s today).1) = Z.to_nat n
  ∧ sparseLabels (buildMonthlySeries tz y mn s today).1 !! Z.to_nat i
    = Some (if (i + 1) mod 5 =? 0 then numberToString (Some (i + 1))
            else EmptyString).
Proof.
  intros Hn Hi. unfold buildMonthlySeries, sparseLabels. cbn [fst].
  rewrite Hn. split.
  - by rewrite length_fmap, arrayFrom_length.
  - rewrite list_lookup_fmap, arrayFrom_lookup by done.
    cbn [fmap option_fmap option_map].
    rewrite StringToNumber_numberToString by lia.
    by rewrite Z.rem_mod_nonneg by lia.
Qed.

Lemma sparse_labels_witness :
  daysInMonth london (Some 2024) (Some 1) = Some 29 ∧ 0 <= 9 < 29
  ∧ sparseLabels
      (buildMonthlySeries london (Some 2024) (Some 1) doneMar5 "2024-02-10").1
    = [""; ""; ""; ""; "5"; ""; ""; ""; ""; "10"; ""; ""; ""; ""; "15"; "";
       ""; ""; ""; "20"; ""; ""; ""; ""; "25"; ""; ""; ""; ""]%string
  ∧ length (sparseLabels
              (buildMonthlySeries london (Some 2024) (Some 1) doneMar5
                 "2024-02-10").1) = Z.to_nat 29
  ∧ sparseLabels
      (buildMonthlySeries london (Some 2024) (Some 1) doneMar5
         "2024-02-10").1 !! Z.to_nat 9
    = Some (if (9 + 1) mod 5 =? 0 then numberToString (Some (9 + 1))
            else EmptyString).
Proof.
  assert (Hn : daysInMonth london (Some 2024) (Some 1) = Some 29)
    by (vm_compute; reflexivity).
  assert (Hi : 0 <= 9 < 29) by lia.
  split; [exact Hn |]. split; [exact Hi |].
  split; [vm_compute; reflexivity |].
  exact (sparse_labels london (Some 2024) (Some 1) doneMar5 "2024-02-10" 29 9
           Hn Hi).
Defined.

(** X14. The values given to the chart are the series with 0 in place of
    every [null]; the top of the scale is at least 4 and at least every
    value, and it is 4 or one of the values. *)
Theorem chart_scale (data : list (option Z)) :
  length (chartValues data) = length data
  ∧ (∀ i, data !! i = Some None → chartValues data !! i = Some 0)
  ∧ (∀ i v, data !! i = Some (Some v) → chartValues data !! i = Some v)
  ∧ 4 <= maxY (chartValues data)
  ∧ (∀ v, v ∈ chartValues data → v <= maxY (chartValues data))
  ∧ (maxY (chartValues data) = 4
     ∨ maxY (chartValues data) ∈ chartValues data).
Proof.
  unfold chartValues, maxY.
  destruct (fold_max_spec
              ((fun v => match v with Some n => n | None => 0 end) <$> data) 0)
    as (Hge & Hall & Hin).
  split; [by rewrite length_fmap |].
  split; [intros i Hi; by rewrite list_lookup_fmap, Hi |].
  split; [intros i v Hi; by rewrite list_lookup_fmap, Hi |].
  split; [lia |]. split.
  - intros v Hv. specialize (Hall v Hv). lia.
  - destruct (Z.max_spec 4
                (fold_left Z.max
                   ((fun v => match v with Some n => n | None => 0 end)
                      <$> data) 0)) as [[Hlt ->] | [_ ->]]; [| by left].
    destruct Hin as [E | Hin]; [lia | by right].
Qed.

(** The chart of March 2024 with one [done]: the scale stays at 4. *)
Example chart_march :
  chartValues
    (buildMonthlySeries london (Some 2024) (Some 2) doneMar5 "2024-03-06").2
  = [0; 0; 0; 0; 1; 0; 0; 0; 0; 0; 0; 0; 0; 0; 0; 0; 0; 0; 0; 0; 0; 0; 0; 0;
     0; 0; 0; 0; 0; 0; 0]
  ∧ maxY (chartValues
            (buildMonthlySeries london (Some 2024) (Some 2) doneMar5
               "2024-03-06").2) = 4.
Proof. vm_compute. split; reflexivity. Qed.

(** ** The two variants of the series *)

Lemma countDone_listed (s : StatusByDate) iso (ids : list string) :
  NoDup ids → (∀ a, stored s a iso = Some done → a ∈ ids) →
  countDone s iso ids = Z.of_nat (size (doneOn s iso)).
Proof.
  intros Hnd Hall. unfold countDone. rewrite countDone_from, Z.add_0_l.
  f_equal. unfold doneOn.
  rewrite <- (size_list_to_set (C := gset string)).
  - apply set_size_proper. intros a.
    rewrite elem_of_list_to_set, list_elem_of_filter, elem_of_filter.
    rewrite elem_of_dom. split.
    + intros [Hd _]. split; [done |]. unfold stored in Hd.
      destruct (s !! a); [by eexists | done].
    + intros [Hd _]. split; [done | by apply Hall].
  - by apply NoDup_filter.
Qed.

(** X15. The variant of the series under [app/(tabs)], which counts over
    the list of activities, returns what the one counting over the keys of
    the snapshot returns whenever the activities have distinct identifiers
    and every identifier holding a [done] is one of theirs. *)
Theorem tabs_series_agrees tz y mn (acts : list Activity) s today :
  NoDup (id <$> acts) →
  (∀ a k, stored s a k = Some done → a ∈ id <$> acts) →
  Tabs.buildMonthlySeries tz y mn acts s today
  = buildMonthlySeries tz y mn s today.
Proof.
  intros Hnd Hall. unfold Tabs.buildMonthlySeries, buildMonthlySeries.
  f_equal. unfold arrayFrom. apply list_fmap_ext. intros _ i _.
  unfold seriesValue. destruct (dateGt _ _); [done |]. f_equal.
  rewrite countDone_keys. apply countDone_listed; [done |].
  intros a. apply Hall.
Qed.

Lemma tabs_series_agrees_witness :
  NoDup (id <$> [actX])
  ∧ (∀ a k, stored doneMar5 a k = Some done → a ∈ id <$> [actX])
  ∧ Tabs.buildMonthlySeries london (Some 2024) (Some 2) [actX] doneMar5
      "2024-03-15"
    = buildMonthlySeries london (Some 2024) (Some 2) doneMar5 "2024-03-15".
Proof.
  assert (Hnd : NoDup (id <$> [actX])).
  { cbn. apply NoDup_singleton. }
  assert (Hall : ∀ a k, stored doneMar5 a k = Some done → a ∈ id <$> [actX]).
  { intros a k. unfold stored, doneMar5.
    destruct (decide (a = "X"%string)) as [-> | Ha].
    - intros _. cbn. apply list_elem_of_here.
    - by rewrite lookup_singleton_ne. }
  split; [exact Hnd |]. split; [exact Hall |].
  exact (tabs_series_agrees london (Some 2024) (Some 2) [actX] doneMar5
           "2024-03-15" Hnd Hall).
Defined.

(** ** Loading *)

(** X16. After the first load the cursor is set, today is unchanged, and
    what is saved is the state shown; with nothing saved before, the board
    starts with no activity, an empty snapshot and today as the cursor.
    Reloading from what was just saved, on the same today, changes neither
    the state nor what is saved. *)
Theorem load_then_reload tz saved st :
  let r := initialLoad tz saved st in
  r.2 = persisted r.1
  ∧ todayISO r.1 = todayISO st
  ∧ is_Some (lastClosedISO r.1)
  ∧ (saved = None →
     activities r.1 = [] ∧ statusByDate r.1 = ∅
     ∧ lastClosedISO r.1 = Some (todayISO st))
  ∧ reloadFromStorage tz (Some r.2) r.1 = (r.1, Some r.2).
Proof.
  cbn zeta. destruct saved as [sv |]; cbn [initialLoad].
  - unfold loadSaved. cbn [fst snd].
    split; [done |]. split; [done |]. split; [by eexists |].
    split; [done |].
    unfold reloadFromStorage, loadSaved.
    cbn [fst snd todayISO Saved.activities Saved.statusByDate
         Saved.lastClosedISO].
    by rewrite closeMissingDays_twice.
  - cbn [fst snd]. split; [done |]. split; [done |]. split; [by eexists |].
    split; [done |].
    unfold reloadFromStorage, loadSaved.
    cbn [fst snd todayISO Saved.activities Saved.statusByDate
         Saved.lastClosedISO].
    by rewrite closeMissingDays_again.
Qed.

(** ** Malformed identifiers downstream *)

Lemma parseISO_bad tz iso i :
  (i < 3)%nat → badComponent iso i = true → parseISO tz iso = None.
Proof.
  intros Hi Hbad.
  assert (Hc : component (StringToNumber <$> split "-" iso) i = None).
  { unfold component, badComponent in *. rewrite list_lookup_fmap.
    destruct (split "-" iso !! i) as [t |]; [| done].
    cbn. by apply StringToNumber_foreign. }
  unfold parseISO.
  destruct i as [| [| [| i]]]; [| | | lia]; rewrite Hc;
    destruct (component _ 0%nat) as [y |]; try done;
    destruct (component _ 1%nat) as [m |]; done.
Qed.

Lemma diffDays_bad tz a b i :
  (i < 3)%nat → badComponent a i = true ∨ badComponent b i = true →
  diffDays tz a b = None.
Proof.
  intros Hi [Ha | Hb]; unfold diffDays, getTime.
  - by rewrite (parseISO_bad tz a i Hi Ha).
  - rewrite (parseISO_bad tz b i Hi Hb). by destruct (parseISO tz a).
Qed.

(** X17. A cursor or a today with a missing component, or with a character
    of ASCII that no numeric literal has, stops nothing: [diffDays] is NaN,
    the closure writes nothing and returns today as the cursor, and
    [addDaysISO] of such an identifier is the text NaN-NaN-NaN. *)
Theorem malformed_closes_nothing tz acts s lastClosed today i :
  (i < 3)%nat →
  badComponent lastClosed i = true ∨ badComponent today i = true →
  diffDays tz lastClosed today = None
  ∧ closeMissingDays tz acts s (Some lastClosed) today = (s, today)
  ∧ (badComponent lastClosed i = true →
     ∀ k, addDaysISO tz lastClosed k = "NaN-NaN-NaN"%string).
Proof.
  intros Hi Hbad. pose proof (diffDays_bad tz lastClosed today i Hi Hbad) as Hd.
  split; [done |]. split; [by apply closeMissingDays_nan |].
  intros Hl k. unfold addDaysISO. by rewrite (parseISO_bad tz _ i Hi Hl).
Qed.

Lemma malformed_closes_nothing_witness :
  (1 < 3)%nat
  ∧ (badComponent "2024-mm-01" 1 = true ∨ badComponent "2024-01-04" 1 = true)
  ∧ diffDays bogota "2024-mm-01" "2024-01-04" = None
  ∧ closeMissingDays bogota [actX] doneJan2 (Some "2024-mm-01") "2024-01-04"
    = (doneJan2, "2024-01-04")
  ∧ (badComponent "2024-mm-01" 1 = true →
     ∀ k, addDaysISO bogota "2024-mm-01" k = "NaN-NaN-NaN"%string).
Proof.
  assert (Hi : (1 < 3)%nat) by lia.
  assert (Hb : badComponent "2024-mm-01" 1 = true
               ∨ badComponent "2024-01-04" 1 = true)
    by (left; vm_compute; reflexivity).
  split; [exact Hi |]. split; [exact Hb |].
  exact (malformed_closes_nothing bogota [actX] doneJan2 "2024-mm-01"
           "2024-01-04" 1 Hi Hb).
Defined.

(** X18. With such a today the series has no gap: no day of the month is
    after a date that is not one, so every entry is a count. *)
Theorem malformed_today_no_gap tz y mn s today i v :
  (i < 3)%nat → badComponent today i = true →
  v ∈ (buildMonthlySeries tz y mn s today).2 → is_Some v.
Proof.
  intros Hi Hbad. unfold buildMonthlySeries. cbn [snd].
  rewrite (parseISO_bad tz today i Hi Hbad). unfold arrayFrom.
  intros (j & -> & _)%list_elem_of_fmap. unfold seriesValue.
  replace (dateGt _ None) with false; [by eexists |].
  unfold dateGt. by destruct (setHours0 _ _).
Qed.

Lemma malformed_today_no_gap_witness :
  (0 < 3)%nat ∧ badComponent "hoy" 0 = true
  ∧ Some 0 ∈ (buildMonthlySeries london (Some 2024) (Some 1) doneMar5 "hoy").2
  ∧ is_Some (Some 0).
Proof.
  assert (Hi : (0 < 3)%nat) by lia.
  assert (Hb : badComponent "hoy" 0 = true) by (vm_compute; reflexivity).
  assert (Hin : Some 0 ∈ (buildMonthlySeries london (Some 2024) (Some 1)
                            doneMar5 "hoy").2)
    by (vm_compute; apply list_elem_of_here).
  split; [exact Hi |]. split; [exact Hb |]. split; [exact Hin |].
  exact (malformed_today_no_gap london (Some 2024) (Some 1) doneMar5 "hoy"
           0 (Some 0) Hi Hb Hin).
Defined.

(** ** The closure and the chart *)

Lemma fill_done v : fill v = Some done ↔ v = Some done.
Proof. destruct v as [[] |]; cbn; split; congruence. Qed.

Lemma doneOn_stored (s : StatusByDate) iso a :
  a ∈ doneOn s iso ↔ stored s a iso = Some done.
Proof.
  unfold doneOn. rewrite elem_of_filter, elem_of_dom. split; [tauto |].
  intros Hd. split; [done |]. unfold stored in Hd.
  destruct (s !! a); [by eexists | done].
Qed.

(** X19. Closing the missing days never changes the chart: the closure
    writes [missed] only, so the series of any month, for any today, is
    the same over the snapshot it returns as over the one it was given. *)
Theorem closure_keeps_series tz acts s lastClosed today y mn today' :
  buildMonthlySeries tz y mn
    (closeMissingDays tz acts s lastClosed today).1 today'
  = buildMonthlySeries tz y mn s today'.
Proof.
  unfold buildMonthlySeries. f_equal. unfold arrayFrom.
  apply list_fmap_ext. intros _ i _. unfold seriesValue.
  destruct (dateGt _ _); [done |]. f_equal.
  rewrite !countDone_keys. f_equal. apply set_size_proper. intros a.
  rewrite !doneOn_stored.
  destruct (closeMissingDays_fills tz acts s lastClosed today a
              (toISODate tz (setHours0 tz (newDate tz y mn (Some (i + 1))))))
    as [-> | ->]; [done | apply fill_done].
Qed.
